(** * QA_SDE_FULL: HTTP fundamentals demo and the two in-memory CRUD services

    A shallow embedding of the three scripts of the repository:
    - [01_foundations/web_fundamentals/http_demo.py]  (module [HttpDemo]),
    - [02_backend/fastapi/basic_app.py]               (module [FastAPI]),
    - [02_backend/flask/basic_app.py]                 (module [Flask]),
    preceded by the few Python built-ins they rely on (module [Py]).

    Conventions of the embedding.
    - A Python [str] is a [string]; its characters are the code points
      0..255.  A Python [int] is a [Z].
    - The global lists [users] and [posts] are threaded explicitly: a
      handler takes the state before the request and returns the response
      together with the state after it.
    - [datetime.now()] is an explicit clock reading handed to the handler.
    - A raised [HTTPException], or a [(body, status)] pair returned by a
      Flask view, is a response value carrying its status code. *)

From Stdlib Require Import ZArith List Bool Ascii String DecimalString Lia.
From stdpp Require Import gmap strings.
Import ListNotations.

Local Open Scope string_scope.
Local Open Scope Z_scope.
Local Open Scope list_scope.

(** ** Python built-ins used by the scripts *)

Module Py.

(** *** Characters *)

(** [str.isspace] on one character, for the code points below 256:
    TAB..CR, FS..US, SPACE, NEL and NBSP. *)
Definition isspace (c : ascii) : bool :=
  let n := nat_of_ascii c in
  ((9 <=? n) && (n <=? 13) || (28 <=? n) && (n <=? 32)
   || (n =? 133) || (n =? 160))%nat.

Definition isdigit (c : ascii) : bool :=
  let n := nat_of_ascii c in ((48 <=? n) && (n <=? 57))%nat.

(** [str.lower] on one character: the capitals below code point 256
    are A..Z and the accented ones at 192..214 and 216..222, each 32
    below its small letter. *)
Definition lower_char (c : ascii) : ascii :=
  let n := nat_of_ascii c in
  if ((65 <=? n) && (n <=? 90) || (192 <=? n) && (n <=? 214)
      || (216 <=? n) && (n <=? 222))%nat
  then ascii_of_nat (n + 32) else c.

(** *** Strings *)

Fixpoint lower (s : string) : string :=
  match s with
  | EmptyString => EmptyString
  | String c s' => String (lower_char c) (lower s')
  end.

(** [sub in s] *)
Fixpoint contains (sub s : string) : bool :=
  String.prefix sub s
  || match s with
     | EmptyString => false
     | String _ s' => contains sub s'
     end.

(** Truth value of a string: [bool(s)]. *)
Definition truthy_str (s : string) : bool :=
  match s with EmptyString => false | _ => true end.

Fixpoint lstrip (s : string) : string :=
  match s with
  | EmptyString => EmptyString
  | String c s' => if isspace c then lstrip s' else s
  end.

(** Drops trailing white space: a character is kept when it is not a
    blank or when something is kept after it. *)
Fixpoint rstrip (s : string) : string :=
  match s with
  | EmptyString => EmptyString
  | String c s' =>
      match rstrip s' with
      | EmptyString => if isspace c then EmptyString else String c EmptyString
      | r => String c r
      end
  end.

(** [s.strip()] *)
Definition strip (s : string) : string := rstrip (lstrip s).

(** The scanning loop of [s.split(sep, maxsplit)] for a non-empty [sep]
    (every call site of the scripts passes a literal separator; Python
    raises [ValueError] on an empty one).  [budget] is the number of
    splits still allowed ([None]: no limit), [skip] the number of
    characters of a separator just matched that are still to be passed
    over, [acc] the piece being collected. *)
Fixpoint split_go (sep : string) (budget : option nat) (skip : nat)
         (acc : string) (s : string) : list string :=
  match s with
  | EmptyString => [acc]
  | String c s' =>
      match skip with
      | S k => split_go sep budget k acc s'
      | O =>
          let allowed :=
            match budget with Some O => false | _ => true end in
          if allowed && String.prefix sep s
          then acc :: split_go sep (option_map Nat.pred budget)
                               (Nat.pred (String.length sep)) EmptyString s'
          else split_go sep budget 0 (acc +:+ String c EmptyString) s'
      end
  end.

(** [s.split(sep)] *)
Definition split (sep s : string) : list string :=
  split_go sep None 0 EmptyString s.

(** [s.split(sep, maxsplit)] with [maxsplit >= 0] *)
Definition split_max (sep : string) (maxsplit : nat) (s : string)
  : list string :=
  split_go sep (Some maxsplit) 0 EmptyString s.

(** [sep.join(ls)] *)
Definition join (sep : string) (ls : list string) : string :=
  String.concat sep ls.

(** *** [int(s)] for a string argument, base ten.

    After stripping white space: an optional sign, then decimal digits
    in which single underscores may separate digits.  Anything else is
    a [ValueError], here [None].  (Digits outside ASCII and the
    interpreter's limit on the number of digits are not modelled.) *)

Definition digit_val (c : ascii) : Z := Z.of_nat (nat_of_ascii c) - 48.

(** [digits_go acc prev_digit s]: reads the rest of the numeral;
    [prev_digit] tells whether the previous character was a digit, which
    an underscore and the end of the numeral both require. *)
Fixpoint digits_go (acc : Z) (prev_digit : bool) (s : string) : option Z :=
  match s with
  | EmptyString => if prev_digit then Some acc else None
  | String c s' =>
      if isdigit c then digits_go (10 * acc + digit_val c) true s'
      else if (Ascii.eqb c "_"%char) && prev_digit then digits_go acc false s'
      else None
  end.

Definition int_of_str (s : string) : option Z :=
  match strip s with
  | String "-"%char r =>
      match r with
      | String c _ => if isdigit c then option_map Z.opp (digits_go 0 false r)
                      else None
      | EmptyString => None
      end
  | String "+"%char r =>
      match r with
      | String c _ => if isdigit c then digits_go 0 false r else None
      | EmptyString => None
      end
  | r => digits_go 0 false r
  end.

(** [str(n)] for a natural number (a length). *)
Definition str_of_nat (n : nat) : string :=
  NilZero.string_of_uint (Nat.to_uint n).

(** *** Truth values and JSON scalars *)

(** [bool(n)] for an [int]. *)
Definition truthy_int (n : Z) : bool := negb (n =? 0).

(** The values a member of a decoded JSON object can have, as far as
    the Flask views are modelled: [None], a [bool], an [int] or a [str]
    (numbers with a fraction, arrays and nested objects are left out). *)
Inductive value :=
| VNone
| VBool (b : bool)
| VInt (n : Z)
| VStr (s : string).

(** [bool(v)] *)
Definition truthy (v : value) : bool :=
  match v with
  | VNone => false
  | VBool b => b
  | VInt n => truthy_int n
  | VStr s => truthy_str s
  end.

(** [v == w]: a [bool] compares as the integer 0 or 1. *)
Definition eq_value (v w : value) : bool :=
  match v, w with
  | VNone, VNone => true
  | VBool a, VBool b => Bool.eqb a b
  | VBool a, VInt n | VInt n, VBool a => (if a then 1 else 0) =? n
  | VInt m, VInt n => m =? n
  | VStr s, VStr t => String.eqb s t
  | _, _ => false
  end.

(** [d.get(key)] on a dictionary with string keys. *)
Definition dict_get (d : gmap string value) (key : string) : value :=
  match d !! key with Some v => v | None => VNone end.

(** *** Lists *)

(** [next((x for x in l if p(x)), None)] *)
Definition next_or_none {A} (p : A -> bool) (l : list A) : option A :=
  List.find p l.

(** [any(p(x) for x in l)] *)
Definition any {A} (p : A -> bool) (l : list A) : bool := existsb p l.

(** [l.remove(x)]: drops the first element equal to [x]; [eqb] is the
    element comparison [==].  (Python raises [ValueError] when there is
    none; the scripts only remove an element they have just found.) *)
Fixpoint remove {A} (eqb : A -> A -> bool) (x : A) (l : list A) : list A :=
  match l with
  | [] => []
  | y :: l' => if eqb y x then l' else y :: remove eqb x l'
  end.

(** Clamping of one slice bound against a list of [len] elements. *)
Definition slice_bound (len : nat) (i : Z) : nat :=
  if i <? 0 then Z.to_nat (Z.max 0 (i + Z.of_nat len))
  else Nat.min (Z.to_nat i) len.

(** [l[a:b]] *)
Definition slice {A} (l : list A) (a b : Z) : list A :=
  let lo := slice_bound (List.length l) a in
  let hi := slice_bound (List.length l) b in
  firstn (hi - lo) (skipn lo l).

End Py.

(** ** [http_demo.py] *)

Module HttpDemo.

Definition CRLF : string := String "013" (String "010" EmptyString).

(** The dictionary returned by [parse_http_response]. *)
Record Response := mkResponse {
  protocol : string;
  status_code : Z;
  status_message : string;
  headers : gmap string string;
  body : string
}.

(** The header loop [for i, line in enumerate(lines[1:], 1)], started at
    index [i] on the remaining [lines]: returns the header dictionary
    and [body_start].  [body_start] keeps its initial value 0 when the
    loop runs out of lines without meeting an empty one.  A line that
    contains a colon always splits in two at its first colon; the other
    branch of that match is never taken. *)
Fixpoint header_loop (i : nat) (lines : list string)
         (hs : gmap string string) : gmap string string * nat :=
  match lines with
  | [] => (hs, 0%nat)
  | line :: rest =>
      if negb (Py.truthy_str line) then (hs, S i)
      else if Py.contains ":" line then
        match Py.split_max ":" 1 line with
        | [key; value] =>
            header_loop (S i) rest (<[Py.strip key := Py.strip value]> hs)
        | _ => header_loop (S i) rest hs
        end
      else header_loop (S i) rest hs
  end.

(** [parse_http_response]; [None] stands for the [ValueError] raised by
    the unpacking of the status line or by [int]. *)
Definition parse_http_response (response : string) : option Response :=
  let lines := Py.split CRLF response in
  let status_line := hd EmptyString lines in
  match Py.split_max " " 2 status_line with
  | [protocol; status_code; status_message] =>
      let '(hs, body_start) := header_loop 1 (tl lines) ∅ in
      let body := Py.join CRLF (skipn body_start lines) in
      match Py.int_of_str status_code with
      | Some code => Some (mkResponse protocol code status_message hs body)
      | None => None
      end
  | _ => None
  end.

(** *** [make_http_request]

    [urlparse] belongs to the standard library: its result is taken as
    given, with the four attributes the function reads. *)
Record ParseResult := mkParseResult {
  scheme : string;
  hostname : option string;
  port : option Z;
  path : string
}.

(** An f-string field holding [host], which is a [str] or [None]. *)
Definition fmt_host (host : option string) : string :=
  match host with Some h => h | None => "None" end.

(** The request text computed between [# Build HTTP request] and
    [# Send request].  [headers] is the caller's dictionary in insertion
    order ([None] when the argument is left out); [body] likewise. *)
Definition request_lines (parsed : ParseResult) (method : string)
           (headers : option (list (string * string)))
           (body : option string) : list string :=
  let host := hostname parsed in
  let path := if Py.truthy_str (path parsed) then path parsed else "/" in
  let request_lines :=
    [ method +:+ " " +:+ path +:+ " HTTP/1.1";
      "Host: " +:+ fmt_host host;
      "Connection: close" ] in
  let request_lines :=
    match headers with
    | Some hs =>
        (request_lines
           ++ List.map (fun kv => fst kv +:+ ": " +:+ snd kv) hs)%list
    | None => request_lines
    end in
  match body with
  | Some (String _ _ as b) =>
      (request_lines
         ++ [ "Content-Length: " +:+ Py.str_of_nat (String.length b);
              EmptyString;
              b ])%list
  | _ => (request_lines ++ [ EmptyString ])%list
  end.

Definition build_request (parsed : ParseResult) (method : string)
           (headers : option (list (string * string)))
           (body : option string) : string :=
  Py.join CRLF (request_lines parsed method headers body).

Section Socket.

Variable urlparse : string -> ParseResult.

(** The network: what the peer sends back before it closes the
    connection, from whether TLS is used, the host and port connected
    to and the bytes written. *)
Variable peer : bool -> option string -> Z -> string -> string.

Definition connect_port (parsed : ParseResult) : Z :=
  match port parsed with
  | Some p => if p =? 0 then
                if String.eqb (scheme parsed) "https" then 443 else 80
              else p
  | None => if String.eqb (scheme parsed) "https" then 443 else 80
  end.

(** The text handed to [sock.sendall]. *)
Definition sent_request (url method : string)
           (headers : option (list (string * string)))
           (body : option string) : string :=
  build_request (urlparse url) method headers body.

Definition make_http_request (url method : string)
           (headers : option (list (string * string)))
           (body : option string) : string :=
  let parsed := urlparse url in
  peer (String.eqb (scheme parsed) "https") (hostname parsed)
       (connect_port parsed) (sent_request url method headers body).

End Socket.

(** [s.endswith(suffix)] *)
Definition endswith (suffix s : string) : bool :=
  String.prefix (String.rev suffix) (String.rev s).

End HttpDemo.


(** ** [fastapi/basic_app.py] *)

Module FastAPI.

(** A [datetime] value, as a reading of the clock. *)
Definition datetime : Type := Z.

(** The request models.  A handler only ever receives an instance that
    pydantic has validated; the handlers below start from there. *)
Module UserCreate.
Record t := mk { name : string; email : string; age : Z }.
End UserCreate.

Module PostCreate.
Record t := mk { title : string; content : string; user_id : Z }.
End PostCreate.

(** The dictionaries stored in [users] and [posts]. *)
Module User.
Record t := mk {
  id : Z; name : string; email : string; age : Z; created_at : datetime
}.

(** [u == v] on two such dictionaries. *)
Definition eqb (u v : t) : bool :=
  (id u =? id v) && String.eqb (name u) (name v)
  && String.eqb (email u) (email v) && (age u =? age v)
  && (created_at u =? created_at v).
End User.

Module Post.
Record t := mk {
  id : Z; title : string; content : string; user_id : Z;
  author : string; created_at : datetime
}.

Definition eqb (p q : t) : bool :=
  (id p =? id q) && String.eqb (title p) (title q)
  && String.eqb (content p) (content q) && (user_id p =? user_id q)
  && String.eqb (author p) (author q) && (created_at p =? created_at q).
End Post.

(** The in-memory data stores. *)
Record state := mkState { users : list User.t; posts : list Post.t }.

Definition init : state := mkState [] [].

(** What a handler returns, or the [detail] of the exception it raises. *)
Inductive content :=
| OneUser (u : User.t)
| UserList (us : list User.t)
| OnePost (p : Post.t)
| PostList (ps : list Post.t)
| NoContent
| Detail (detail : string).

Record response := Response { status_code : Z; body : content }.

Definition HTTPException (status_code : Z) (detail : string) : response :=
  Response status_code (Detail detail).

(** *** Dependencies *)

Definition get_user_by_id (user_id : Z) (st : state) : response + User.t :=
  match Py.next_or_none (fun u => User.id u =? user_id) (users st) with
  | None => inl (HTTPException 404 "User not found")
  | Some user => inr user
  end.

(** *** User endpoints *)

Definition get_users (skip limit : Z) (search : option string) (st : state)
  : response :=
  let filtered_users :=
    match search with
    | Some (String _ _ as search) =>
        List.filter
          (fun u => Py.contains (Py.lower search) (Py.lower (User.name u)))
          (users st)
    | _ => users st
    end in
  let paginated_users := Py.slice filtered_users skip (skip + limit) in
  Response 200 (UserList paginated_users).

Definition get_user (user_id : Z) (st : state) : response :=
  match Py.next_or_none (fun u => User.id u =? user_id) (users st) with
  | None => HTTPException 404 "User not found"
  | Some user => Response 200 (OneUser user)
  end.

Definition create_user (now : datetime) (user : UserCreate.t) (st : state)
  : response * state :=
  if Py.any (fun u => String.eqb (User.email u) (UserCreate.email user))
            (users st)
  then (HTTPException 409 "Email already exists", st)
  else
    let new_user :=
      User.mk (Z.of_nat (List.length (users st)) + 1)
              (UserCreate.name user) (UserCreate.email user)
              (UserCreate.age user) now in
    (Response 201 (OneUser new_user),
     mkState (users st ++ [new_user]) (posts st)).

Definition delete_user (user_id : Z) (st : state) : response * state :=
  match Py.next_or_none (fun u => User.id u =? user_id) (users st) with
  | None => (HTTPException 404 "User not found", st)
  | Some user =>
      (Response 204 NoContent,
       mkState (Py.remove User.eqb user (users st)) (posts st))
  end.

(** *** Post endpoints *)

Definition get_posts (user_id : option Z) (skip limit : Z) (st : state)
  : response :=
  let filtered_posts :=
    match user_id with
    | Some user_id =>
        if Py.truthy_int user_id
        then List.filter (fun p => Post.user_id p =? user_id) (posts st)
        else posts st
    | None => posts st
    end in
  let paginated_posts := Py.slice filtered_posts skip (skip + limit) in
  Response 200 (PostList paginated_posts).

Definition get_post (post_id : Z) (st : state) : response :=
  match Py.next_or_none (fun p => Post.id p =? post_id) (posts st) with
  | None => HTTPException 404 "Post not found"
  | Some post => Response 200 (OnePost post)
  end.

(** [create_post(post: PostCreate, user: dict = Depends(get_user_by_id))]:
    the [user] argument is what the dependency [get_user_by_id(user_id)]
    returns, and the handler body does not run when the dependency
    raises.  The dependency has its own request parameter [user_id],
    which is not the field [user_id] of the body model [post]. *)
Definition create_post (now : datetime) (user_id : Z) (post : PostCreate.t)
           (st : state) : response * state :=
  match get_user_by_id user_id st with
  | inl exc => (exc, st)
  | inr user =>
      let new_post :=
        Post.mk (Z.of_nat (List.length (posts st)) + 1)
                (PostCreate.title post) (PostCreate.content post)
                (PostCreate.user_id post) (User.name user) now in
      (Response 201 (OnePost new_post),
       mkState (users st) (posts st ++ [new_post]))
  end.

Definition delete_post (post_id : Z) (st : state) : response * state :=
  match Py.next_or_none (fun p => Post.id p =? post_id) (posts st) with
  | None => (HTTPException 404 "Post not found", st)
  | Some post =>
      (Response 204 NoContent,
       mkState (users st) (Py.remove Post.eqb post (posts st)))
  end.

(** *** The public operations (the root page, which neither reads nor
    writes the stores, is left out) *)

Inductive request :=
| GET_users (skip limit : Z) (search : option string)
| GET_user (user_id : Z)
| POST_users (user : UserCreate.t)
| DELETE_user (user_id : Z)
| GET_posts (user_id : option Z) (skip limit : Z)
| GET_post (post_id : Z)
| POST_posts (user_id : Z) (post : PostCreate.t)
| DELETE_post (post_id : Z).

(** One request served at clock reading [now]. *)
Definition handle (now : datetime) (r : request) (st : state)
  : response * state :=
  match r with
  | GET_users skip limit search => (get_users skip limit search st, st)
  | GET_user user_id => (get_user user_id st, st)
  | POST_users user => create_user now user st
  | DELETE_user user_id => delete_user user_id st
  | GET_posts user_id skip limit => (get_posts user_id skip limit st, st)
  | GET_post post_id => (get_post post_id st, st)
  | POST_posts user_id post => create_post now user_id post st
  | DELETE_post post_id => delete_post post_id st
  end.

(** A sequence of requests served one after the other: the responses in
    order and the final state. *)
Fixpoint serve (rs : list (datetime * request)) (st : state)
  : list response * state :=
  match rs with
  | [] => ([], st)
  | (now, r) :: rs' =>
      let '(resp, st') := handle now r st in
      let '(resps, st'') := serve rs' st' in
      (resp :: resps, st'')
  end.

Inductive reachable : state -> Prop :=
| reachable_init : reachable init
| reachable_step now r st :
    reachable st -> reachable (snd (handle now r st)).

(** The identifiers handed out in 201 responses to user creations. *)
Definition assigned_user_id (resp : response) : option Z :=
  match resp with
  | Response 201 (OneUser u) => Some (User.id u)
  | _ => None
  end.

End FastAPI.

(** ** [flask/basic_app.py] *)

Module Flask.

(** The part of the global [request] object the views read:
    [request.args], the query string as key/value pairs in order, and
    [request.json], [None] or the decoded JSON object. *)
Record Request := mkRequest {
  args : list (string * string);
  json : option (gmap string Py.value)
}.

(** [request.args.get(key, type=int)]: the first value given for [key],
    converted; [None] when the key is absent or the conversion fails. *)
Definition args_get_int (key : string) (args : list (string * string))
  : option Z :=
  match List.find (fun kv => String.eqb (fst kv) key) args with
  | Some kv => Py.int_of_str (snd kv)
  | None => None
  end.

Module User.
Record t := mk { id : Z; name : Py.value; email : Py.value }.

Definition eqb (u v : t) : bool :=
  (id u =? id v) && Py.eq_value (name u) (name v)
  && Py.eq_value (email u) (email v).
End User.

Module Post.
Record t := mk {
  id : Z; title : Py.value; content : Py.value; user_id : Py.value;
  author : Py.value
}.
End Post.

Record state := mkState { users : list User.t; posts : list Post.t }.

Definition init : state := mkState [] [].

(** The first component of what a view returns. *)
Inductive content :=
| Error (error : string)
| OneUser (u : User.t)
| Users (users : list User.t) (count : nat)
| OnePost (p : Post.t)
| Posts (posts : list Post.t) (count : nat)
| Empty.

Record response := Response { body : content; status_code : Z }.

(** *** User API endpoints *)

Definition get_users (st : state) : response :=
  Response (Users (users st) (List.length (users st))) 200.

Definition create_user (request : Request) (st : state)
  : response * state :=
  match json request with
  | None => (Response (Error "No data provided") 400, st)
  | Some data =>
      if decide (data = ∅) then
        (Response (Error "No data provided") 400, st)
      else if negb (Py.truthy (Py.dict_get data "name")) then
        (Response (Error "Name is required") 400, st)
      else if negb (Py.truthy (Py.dict_get data "email")) then
        (Response (Error "Email is required") 400, st)
      else if Py.any (fun user => Py.eq_value (User.email user)
                                              (Py.dict_get data "email"))
                     (users st) then
        (Response (Error "Email already exists") 409, st)
      else
        let new_user :=
          User.mk (Z.of_nat (List.length (users st)) + 1)
                  (Py.dict_get data "name") (Py.dict_get data "email") in
        (Response (OneUser new_user) 201,
         mkState (users st ++ [new_user]) (posts st))
  end.

Definition get_user (user_id : Z) (st : state) : response :=
  match Py.next_or_none (fun u => User.id u =? user_id) (users st) with
  | Some user => Response (OneUser user) 200
  | None => Response (Error "User not found") 404
  end.

Definition delete_user (user_id : Z) (st : state) : response * state :=
  match Py.next_or_none (fun u => User.id u =? user_id) (users st) with
  | Some user =>
      (Response Empty 204,
       mkState (Py.remove User.eqb user (users st)) (posts st))
  | None => (Response (Error "User not found") 404, st)
  end.

(** *** Post API endpoints *)

Definition get_posts (request : Request) (st : state) : response :=
  let user_id := args_get_int "user_id" (args request) in
  let filtered_posts :=
    match user_id with
    | Some user_id =>
        if Py.truthy_int user_id
        then List.filter
               (fun p => Py.eq_value (Post.user_id p) (Py.VInt user_id))
               (posts st)
        else posts st
    | None => posts st
    end in
  Response (Posts filtered_posts (List.length filtered_posts)) 200.

Definition create_post (request : Request) (st : state)
  : response * state :=
  match json request with
  | None => (Response (Error "No data provided") 400, st)
  | Some data =>
      if decide (data = ∅) then
        (Response (Error "No data provided") 400, st)
      else if negb (Py.truthy (Py.dict_get data "title")) then
        (Response (Error "Title is required") 400, st)
      else if negb (Py.truthy (Py.dict_get data "content")) then
        (Response (Error "Content is required") 400, st)
      else if negb (Py.truthy (Py.dict_get data "user_id")) then
        (Response (Error "user_id is required") 400, st)
      else
        match Py.next_or_none
                (fun u => Py.eq_value (Py.VInt (User.id u))
                                      (Py.dict_get data "user_id"))
                (users st) with
        | None => (Response (Error "User not found") 404, st)
        | Some user =>
            let new_post :=
              Post.mk (Z.of_nat (List.length (posts st)) + 1)
                      (Py.dict_get data "title")
                      (Py.dict_get data "content")
                      (Py.dict_get data "user_id")
                      (User.name user) in
            (Response (OnePost new_post) 201,
             mkState (users st) (posts st ++ [new_post]))
        end
  end.

Definition get_post (post_id : Z) (st : state) : response :=
  match Py.next_or_none (fun p => Post.id p =? post_id) (posts st) with
  | Some post => Response (OnePost post) 200
  | None => Response (Error "Post not found") 404
  end.

(** *** The public operations (the home page is left out) *)

Inductive route :=
| GET_users
| POST_users
| GET_user (user_id : Z)
| DELETE_user (user_id : Z)
| GET_posts
| POST_posts
| GET_post (post_id : Z).

Definition handle (r : route) (request : Request) (st : state)
  : response * state :=
  match r with
  | GET_users => (get_users st, st)
  | POST_users => create_user request st
  | GET_user user_id => (get_user user_id st, st)
  | DELETE_user user_id => delete_user user_id st
  | GET_posts => (get_posts request st, st)
  | POST_posts => create_post request st
  | GET_post post_id => (get_post post_id st, st)
  end.

Fixpoint serve (rs : list (route * Request)) (st : state)
  : list response * state :=
  match rs with
  | [] => ([], st)
  | (r, request) :: rs' =>
      let '(resp, st') := handle r request st in
      let '(resps, st'') := serve rs' st' in
      (resp :: resps, st'')
  end.

Inductive reachable : state -> Prop :=
| reachable_init : reachable init
| reachable_step r request st :
    reachable st -> reachable (snd (handle r request st)).

Definition assigned_user_id (resp : response) : option Z :=
  match resp with
  | Response (OneUser u) 201 => Some (User.id u)
  | _ => None
  end.

End Flask.

(** ** Sample data

    Concrete stores and requests on which the properties below are
    evaluated. *)

Definition fastapi_two_users_one_post : FastAPI.state :=
  FastAPI.mkState
    [ FastAPI.User.mk 1 "Alice" "alice@example.com" 30 100;
      FastAPI.User.mk 2 "Bob" "bob@example.com" 25 101 ]
    [ FastAPI.Post.mk 1 "Hello" "First post" 1 "Alice" 102 ].

Definition flask_two_users_one_post : Flask.state :=
  Flask.mkState
    [ Flask.User.mk 1 (Py.VStr "Alice") (Py.VStr "alice@example.com");
      Flask.User.mk 2 (Py.VStr "Bob") (Py.VStr "bob@example.com") ]
    [ Flask.Post.mk 1 (Py.VStr "Hello") (Py.VStr "First post") (Py.VInt 1)
        (Py.VStr "Alice") ].

(** A listing request that asks for one user, skipping one, among those
    whose name contains "zzz". *)
Definition flask_paged_search_request : Flask.Request :=
  Flask.mkRequest [("skip", "1"); ("limit", "1"); ("search", "zzz")] None.

(** A post listing filtered on [user_id=0]. *)
Definition flask_user_id_zero_request : Flask.Request :=
  Flask.mkRequest [("user_id", "0")] None.

Definition fastapi_alice_again : FastAPI.UserCreate.t :=
  FastAPI.UserCreate.mk "Alice B." "alice@example.com" 31.

(** A create-user body with a registered email and a name. *)
Definition flask_alice_again : Flask.Request :=
  Flask.mkRequest []
    (Some {[ "name" := Py.VStr "Alice B.";
             "email" := Py.VStr "alice@example.com" ]}).

(** A create-user body with a registered email and no name. *)
Definition flask_email_only : Flask.Request :=
  Flask.mkRequest [] (Some {[ "email" := Py.VStr "alice@example.com" ]}).

Definition fastapi_post_body : FastAPI.PostCreate.t :=
  FastAPI.PostCreate.mk "Title" "Text" 7.

(** A complete create-post body naming user 7, who does not exist. *)
Definition flask_post_unknown_user : Flask.Request :=
  Flask.mkRequest []
    (Some {[ "title" := Py.VStr "Title"; "content" := Py.VStr "Text";
             "user_id" := Py.VInt 7 ]}).

(** A complete create-post body naming user 0. *)
Definition flask_post_user_zero : Flask.Request :=
  Flask.mkRequest []
    (Some {[ "title" := Py.VStr "Title"; "content" := Py.VStr "Text";
             "user_id" := Py.VInt 0 ]}).

(** Two users are created, then the first one is deleted. *)
Definition fastapi_create_create_delete
  : list (FastAPI.datetime * FastAPI.request) :=
  [ (100, FastAPI.POST_users
            (FastAPI.UserCreate.mk "Alice" "alice@example.com" 30));
    (101, FastAPI.POST_users
            (FastAPI.UserCreate.mk "Bob" "bob@example.com" 25));
    (102, FastAPI.DELETE_user 1) ].

Definition fastapi_carol : FastAPI.UserCreate.t :=
  FastAPI.UserCreate.mk "Carol" "carol@example.com" 41.

Definition flask_new_user (name email : string) : Flask.Request :=
  Flask.mkRequest []
    (Some {[ "name" := Py.VStr name; "email" := Py.VStr email ]}).

Definition flask_no_body : Flask.Request := Flask.mkRequest [] None.

Definition flask_create_create_delete : list (Flask.route * Flask.Request) :=
  [ (Flask.POST_users, flask_new_user "Alice" "alice@example.com");
    (Flask.POST_users, flask_new_user "Bob" "bob@example.com");
    (Flask.DELETE_user 1, flask_no_body) ].

Definition flask_carol : Flask.Request :=
  flask_new_user "Carol" "carol@example.com".

(** After that a third user is created, who receives identifier 2 again,
    and user 2 is deleted. *)
Definition fastapi_delete_duplicate_id
  : list (FastAPI.datetime * FastAPI.request) :=
  fastapi_create_create_delete
    ++ [ (103, FastAPI.POST_users fastapi_carol);
         (104, FastAPI.DELETE_user 2) ].

Definition flask_delete_duplicate_id : list (Flask.route * Flask.Request) :=
  flask_create_create_delete
    ++ [ (Flask.POST_users, flask_carol);
         (Flask.DELETE_user 2, flask_no_body) ].

(** Identifiers that are 1, 2, ..., n in this order. *)
Definition sequential (ids : list Z) : Prop :=
  ids = List.map Z.of_nat (seq 1 (List.length ids)).

(** Two users are created. *)
Definition fastapi_create_create
  : list (FastAPI.datetime * FastAPI.request) :=
  [ (100, FastAPI.POST_users
            (FastAPI.UserCreate.mk "Alice" "alice@example.com" 30));
    (101, FastAPI.POST_users
            (FastAPI.UserCreate.mk "Bob" "bob@example.com" 25)) ].

Definition flask_create_create : list (Flask.route * Flask.Request) :=
  [ (Flask.POST_users, flask_new_user "Alice" "alice@example.com");
    (Flask.POST_users, flask_new_user "Bob" "bob@example.com") ].

(** A user is created, then a post of hers. *)
Definition flask_user_then_post : list (Flask.route * Flask.Request) :=
  [ (Flask.POST_users, flask_new_user "Alice" "alice@example.com");
    (Flask.POST_posts,
     Flask.mkRequest []
       (Some {[ "title" := Py.VStr "Title"; "content" := Py.VStr "Text";
                "user_id" := Py.VInt 1 ]})) ].

(** * Properties *)

(** ** Facts about the built-ins *)

Section ListFacts.

Context {A : Type}.
Variable p : A -> bool.

(** Looking up in a list extended at its end. *)
Lemma next_or_none_app (l : list A) (x : A) :
  Py.next_or_none p (l ++ [x]) =
  match Py.next_or_none p l with
  | Some y => Some y
  | None => if p x then Some x else None
  end.
Proof.
  unfold Py.next_or_none.
  induction l as [|y l IH]; simpl.
  - reflexivity.
  - destruct (p y); [reflexivity | exact IH].
Qed.

Lemma next_or_none_none (l : list A) :
  (forall y, In y l -> p y = false) -> Py.next_or_none p l = None.
Proof.
  unfold Py.next_or_none.
  induction l as [|y l IH]; simpl; intros H.
  - reflexivity.
  - rewrite (H y) by (left; reflexivity).
    apply IH. intros z Hz. apply H. right. exact Hz.
Qed.

Lemma next_or_none_some (l : list A) (x : A) :
  Py.next_or_none p l = Some x -> In x l /\ p x = true.
Proof. unfold Py.next_or_none. apply find_some. Qed.

Lemma any_true (l : list A) (x : A) :
  In x l -> p x = true -> Py.any p l = true.
Proof.
  intros Hin Hp. unfold Py.any. apply existsb_exists.
  exists x. split; assumption.
Qed.

Variable eqb : A -> A -> bool.

(** Removing the element that a search has just returned takes out the
    first element satisfying the search predicate, provided [==] is
    reflexive on it and equal elements satisfy the predicate alike. *)
Lemma remove_found (x : A) (l : list A) :
  eqb x x = true ->
  (forall y, eqb y x = true -> p y = true) ->
  Py.next_or_none p l = Some x ->
  exists l1 l2,
    l = l1 ++ x :: l2
    /\ (forall y, In y l1 -> p y = false)
    /\ Py.remove eqb x l = l1 ++ l2.
Proof.
  intros Hrefl Hcompat. unfold Py.next_or_none.
  induction l as [|y l IH]; simpl; intros Hfind.
  - discriminate.
  - destruct (p y) eqn:Hpy.
    + injection Hfind as ->.
      exists [], l. rewrite Hrefl. repeat split.
      intros z [].
    + destruct (eqb y x) eqn:Hyx.
      * apply Hcompat in Hyx. congruence.
      * destruct (IH Hfind) as (l1 & l2 & -> & Hl1 & Hrem).
        exists (y :: l1), l2. simpl. rewrite Hrem. repeat split.
        intros z [<- | Hz]; [exact Hpy | apply Hl1, Hz].
Qed.

End ListFacts.

(** Under the bounds that the query parameters [skip] and [limit] are
    declared with, the slice [l[skip:skip + limit]] skips [skip] elements
    and keeps at most [limit] of the rest. *)
Lemma slice_skip_limit {A} (l : list A) (skip limit : Z) :
  0 <= skip -> 0 <= limit ->
  Py.slice l skip (skip + limit)
  = firstn (Z.to_nat limit) (skipn (Z.to_nat skip) l).
Proof.
  intros Hs Hl. unfold Py.slice, Py.slice_bound.
  destruct (Z.ltb_spec skip 0); [lia|].
  destruct (Z.ltb_spec (skip + limit) 0); [lia|].
  rewrite Z2Nat.inj_add by lia.
  set (s := Z.to_nat skip). set (n := Z.to_nat limit).
  destruct (Nat.le_gt_cases (List.length l) s) as [Hge | Hlt].
  - rewrite Nat.min_r by lia.
    rewrite (skipn_all2 l) by lia.
    rewrite (skipn_all2 l) by lia.
    now rewrite !firstn_nil.
  - rewrite (Nat.min_l s) by lia.
    destruct (Nat.le_gt_cases (s + n) (List.length l)) as [Hle | Hgt].
    + rewrite Nat.min_l by lia. f_equal. lia.
    + rewrite Nat.min_r by lia.
      rewrite !firstn_all2; [reflexivity | | ];
        rewrite length_skipn; lia.
  Qed.

Lemma eq_value_refl (v : Py.value) : Py.eq_value v v = true.
Proof.
  destruct v as [|b|n|s]; simpl.
  - reflexivity.
  - now destruct b.
  - apply Z.eqb_refl.
  - apply String.eqb_refl.
Qed.

Lemma dict_get_empty (key : string) : Py.dict_get ∅ key = Py.VNone.
Proof. unfold Py.dict_get. now rewrite lookup_empty. Qed.

(** ** The raw HTTP client *)

Lemma rev_app_append (a b c : string) :
  String.rev_app (a +:+ b) c = String.rev_app b (String.rev_app a c).
Proof.
  revert c. induction a as [|x a IH]; intros c; simpl.
  - reflexivity.
  - apply IH.
Qed.

Lemma append_assoc (a b c : string) : (a +:+ b) +:+ c = a +:+ (b +:+ c).
Proof.
  induction a as [|x a IH]; [reflexivity|].
  change (String x ((a +:+ b) +:+ c) = String x (a +:+ (b +:+ c))).
  now rewrite IH.
Qed.

(** With neither caller headers nor a body the request is the request
    line, the Host header and the Connection header, each followed by one
    CRLF. *)
Lemma build_request_bare (parsed : HttpDemo.ParseResult) (method : string) :
  HttpDemo.build_request parsed method None None
  = (method +:+ " "
       +:+ (if Py.truthy_str (HttpDemo.path parsed)
            then HttpDemo.path parsed else "/")
       +:+ " HTTP/1.1" +:+ HttpDemo.CRLF
       +:+ "Host: " +:+ HttpDemo.fmt_host (HttpDemo.hostname parsed))
    +:+ (HttpDemo.CRLF +:+ "Connection: close" +:+ HttpDemo.CRLF).
Proof.
  unfold HttpDemo.build_request, HttpDemo.request_lines, Py.join. simpl.
  rewrite !append_assoc. reflexivity.
Qed.

(** With a body, the headers are closed by an empty line before it. *)
Lemma build_request_with_body (parsed : HttpDemo.ParseResult)
      (method : string) (c : ascii) (b : string) :
  HttpDemo.build_request parsed method None (Some (String c b))
  = method +:+ " "
      +:+ (if Py.truthy_str (HttpDemo.path parsed)
           then HttpDemo.path parsed else "/")
      +:+ " HTTP/1.1" +:+ HttpDemo.CRLF
      +:+ "Host: " +:+ HttpDemo.fmt_host (HttpDemo.hostname parsed)
      +:+ HttpDemo.CRLF +:+ "Connection: close" +:+ HttpDemo.CRLF
      +:+ "Content-Length: "
      +:+ Py.str_of_nat (String.length (String c b))
      +:+ HttpDemo.CRLF +:+ HttpDemo.CRLF +:+ String c b.
Proof.
  unfold HttpDemo.build_request, HttpDemo.request_lines, Py.join.
  cbn [app String.concat]. rewrite !append_assoc. reflexivity.
Qed.

(** C5: [parse_http_response] on the status line "HTTP/1.1 200 OK", the
    header line "Content-Type: text/plain", an empty line and the body
    "hello", separated by CRLF, returns protocol "HTTP/1.1", status code
    200, status message "OK", the one header Content-Type: text/plain and
    the body "hello". *)
Theorem parse_http_response_200_OK :
  HttpDemo.parse_http_response
    ("HTTP/1.1 200 OK" +:+ HttpDemo.CRLF
     +:+ "Content-Type: text/plain" +:+ HttpDemo.CRLF
     +:+ HttpDemo.CRLF
     +:+ "hello")
  = Some {| HttpDemo.protocol := "HTTP/1.1";
            HttpDemo.status_code := 200;
            HttpDemo.status_message := "OK";
            HttpDemo.headers := {[ "Content-Type" := "text/plain" ]};
            HttpDemo.body := "hello" |}.
Proof. vm_compute. reflexivity. Qed.

(** C6 (the code departs from the claim): for every parsed URL and
    method, the request serialized without caller headers and without a
    body does not end in CRLF CRLF.  It stops after the single CRLF that
    follows "Connection: close", as for the demonstration's own request
    [GET http://httpbin.org/get]: no empty line closes the header block. *)
Theorem request_without_body_lacks_blank_line :
  (forall (parsed : HttpDemo.ParseResult) (method : string),
     HttpDemo.endswith (HttpDemo.CRLF +:+ HttpDemo.CRLF)
       (HttpDemo.build_request parsed method None None) = false)
  /\ HttpDemo.build_request
       (HttpDemo.mkParseResult "http" (Some "httpbin.org") None "/get")
       "GET" None None
     = "GET /get HTTP/1.1" +:+ HttpDemo.CRLF
       +:+ "Host: httpbin.org" +:+ HttpDemo.CRLF
       +:+ "Connection: close" +:+ HttpDemo.CRLF.
Proof.
  split.
  - intros parsed method. rewrite build_request_bare.
    unfold HttpDemo.endswith, String.rev. rewrite !rev_app_append.
    reflexivity.
  - reflexivity.
Qed.

(** ** The CRUD services: comparison of stored records *)

Lemma fastapi_user_eqb_refl (u : FastAPI.User.t) : FastAPI.User.eqb u u = true.
Proof.
  unfold FastAPI.User.eqb.
  now rewrite !Z.eqb_refl, !String.eqb_refl.
Qed.

Lemma fastapi_user_eqb_id (u v : FastAPI.User.t) :
  FastAPI.User.eqb u v = true -> FastAPI.User.id u = FastAPI.User.id v.
Proof.
  unfold FastAPI.User.eqb. intros H.
  repeat (apply andb_prop in H; destruct H as [H ?]).
  now apply Z.eqb_eq.
Qed.

Lemma flask_user_eqb_refl (u : Flask.User.t) : Flask.User.eqb u u = true.
Proof.
  unfold Flask.User.eqb.
  now rewrite Z.eqb_refl, !eq_value_refl.
Qed.

Lemma flask_user_eqb_id (u v : Flask.User.t) :
  Flask.User.eqb u v = true -> Flask.User.id u = Flask.User.id v.
Proof.
  unfold Flask.User.eqb. intros H.
  repeat (apply andb_prop in H; destruct H as [H ?]).
  now apply Z.eqb_eq.
Qed.

(** What a successful [users.remove(user)] after the search by identifier
    does to the list, in either service. *)
Lemma fastapi_remove_by_id (k : Z) (us : list FastAPI.User.t)
      (user : FastAPI.User.t) :
  Py.next_or_none (fun u => FastAPI.User.id u =? k) us = Some user ->
  exists l1 l2,
    us = l1 ++ user :: l2
    /\ FastAPI.User.id user = k
    /\ (forall v, In v l1 -> FastAPI.User.id v <> k)
    /\ Py.remove FastAPI.User.eqb user us = l1 ++ l2.
Proof.
  intros Hfind.
  destruct (next_or_none_some _ _ _ Hfind) as [_ Hid].
  apply Z.eqb_eq in Hid.
  destruct (remove_found (fun u => FastAPI.User.id u =? k)
              FastAPI.User.eqb user us) as (l1 & l2 & Hus & Hl1 & Hrem).
  - apply fastapi_user_eqb_refl.
  - intros y Hy. apply fastapi_user_eqb_id in Hy. apply Z.eqb_eq. congruence.
  - exact Hfind.
  - exists l1, l2. repeat split; try assumption.
    intros v Hv. apply Z.eqb_neq. now apply Hl1.
Qed.

Lemma flask_remove_by_id (k : Z) (us : list Flask.User.t)
      (user : Flask.User.t) :
  Py.next_or_none (fun u => Flask.User.id u =? k) us = Some user ->
  exists l1 l2,
    us = l1 ++ user :: l2
    /\ Flask.User.id user = k
    /\ (forall v, In v l1 -> Flask.User.id v <> k)
    /\ Py.remove Flask.User.eqb user us = l1 ++ l2.
Proof.
  intros Hfind.
  destruct (next_or_none_some _ _ _ Hfind) as [_ Hid].
  apply Z.eqb_eq in Hid.
  destruct (remove_found (fun u => Flask.User.id u =? k)
              Flask.User.eqb user us) as (l1 & l2 & Hus & Hl1 & Hrem).
  - apply flask_user_eqb_refl.
  - intros y Hy. apply flask_user_eqb_id in Hy. apply Z.eqb_eq. congruence.
  - exact Hfind.
  - exists l1, l2. repeat split; try assumption.
    intros v Hv. apply Z.eqb_neq. now apply Hl1.
Qed.

(** ** Deleting a user *)

(** C9: in both services a delete of user [k] answered with 204 takes
    exactly one record out of the user list, the first one whose
    identifier is [k], and leaves the post list as it was; every post,
    those of user [k] included, is still returned by a get-by-id. *)
Theorem delete_user_removes_one_record_and_keeps_posts :
  (forall (k : Z) (st : FastAPI.state),
      FastAPI.status_code (fst (FastAPI.delete_user k st)) = 204 ->
      let st' := snd (FastAPI.delete_user k st) in
      FastAPI.posts st' = FastAPI.posts st
      /\ (forall post_id,
             FastAPI.get_post post_id st' = FastAPI.get_post post_id st)
      /\ exists l1 u l2,
          FastAPI.users st = l1 ++ u :: l2
          /\ FastAPI.User.id u = k
          /\ (forall v, In v l1 -> FastAPI.User.id v <> k)
          /\ FastAPI.users st' = l1 ++ l2)
  /\ (forall (k : Z) (st : Flask.state),
         Flask.status_code (fst (Flask.delete_user k st)) = 204 ->
         let st' := snd (Flask.delete_user k st) in
         Flask.posts st' = Flask.posts st
         /\ (forall post_id,
                Flask.get_post post_id st' = Flask.get_post post_id st)
         /\ exists l1 u l2,
             Flask.users st = l1 ++ u :: l2
             /\ Flask.User.id u = k
             /\ (forall v, In v l1 -> Flask.User.id v <> k)
             /\ Flask.users st' = l1 ++ l2).
Proof.
  split; intros k st; unfold FastAPI.delete_user, Flask.delete_user.
  - destruct (Py.next_or_none _ (FastAPI.users st)) as [user|] eqn:Hfind;
      simpl; intros Hstatus; [|discriminate].
    repeat split.
    destruct (fastapi_remove_by_id k _ user Hfind)
      as (l1 & l2 & Hus & Hid & Hl1 & Hrem).
    exists l1, user, l2. repeat split; assumption.
  - destruct (Py.next_or_none _ (Flask.users st)) as [user|] eqn:Hfind;
      simpl; intros Hstatus; [|discriminate].
    repeat split.
    destruct (flask_remove_by_id k _ user Hfind)
      as (l1 & l2 & Hus & Hid & Hl1 & Hrem).
    exists l1, user, l2. repeat split; assumption.
Qed.

Lemma delete_user_removes_one_record_and_keeps_posts_witness :
  (FastAPI.status_code
     (fst (FastAPI.delete_user 1 fastapi_two_users_one_post)) = 204
   /\ FastAPI.posts (snd (FastAPI.delete_user 1 fastapi_two_users_one_post))
      = FastAPI.posts fastapi_two_users_one_post)
  /\ (Flask.status_code
        (fst (Flask.delete_user 1 flask_two_users_one_post)) = 204
      /\ Flask.posts (snd (Flask.delete_user 1 flask_two_users_one_post))
         = Flask.posts flask_two_users_one_post).
Proof.
  split; (split; [reflexivity|]).
  - apply (proj1 delete_user_removes_one_record_and_keeps_posts
             1 fastapi_two_users_one_post).
    reflexivity.
  - apply (proj2 delete_user_removes_one_record_and_keeps_posts
             1 flask_two_users_one_post).
    reflexivity.
Defined.

(** ** Listing *)

(** C10: in both services the post listing treats [user_id=0] as an
    absent filter.  FastAPI answers as without the parameter, that is with
    the slice [skip:skip+limit] of all posts; Flask answers with all posts
    and their number. *)
Theorem get_posts_user_id_zero_is_unfiltered :
  (forall (skip limit : Z) (st : FastAPI.state),
      FastAPI.get_posts (Some 0) skip limit st
      = FastAPI.get_posts None skip limit st
      /\ FastAPI.get_posts (Some 0) skip limit st
         = FastAPI.Response 200
             (FastAPI.PostList
                (Py.slice (FastAPI.posts st) skip (skip + limit))))
  /\ (forall (request : Flask.Request) (st : Flask.state),
         Flask.args_get_int "user_id" (Flask.args request) = Some 0 ->
         Flask.get_posts request st
         = Flask.Response
             (Flask.Posts (Flask.posts st) (List.length (Flask.posts st)))
             200).
Proof.
  split.
  - intros skip limit st. split; reflexivity.
  - intros request st Harg. unfold Flask.get_posts. rewrite Harg.
    reflexivity.
Qed.

Lemma get_posts_user_id_zero_is_unfiltered_witness :
  Flask.args_get_int "user_id" (Flask.args flask_user_id_zero_request)
  = Some 0
  /\ Flask.get_posts flask_user_id_zero_request flask_two_users_one_post
     = Flask.Response
         (Flask.Posts (Flask.posts flask_two_users_one_post) 1) 200.
Proof.
  split.
  - reflexivity.
  - apply (proj2 get_posts_user_id_zero_is_unfiltered
             flask_user_id_zero_request flask_two_users_one_post).
    reflexivity.
Defined.

(** C8, as the claim states it, fails: the Flask listing ignores [skip],
    [limit] and [search] (asked for one user named like "zzz" after the
    first, it answers with both users), and the FastAPI listing answers
    with the bare list, without a count. *)
Lemma get_users_query_parameters_counterexample :
  Flask.handle Flask.GET_users flask_paged_search_request
    flask_two_users_one_post
  = (Flask.Response
       (Flask.Users (Flask.users flask_two_users_one_post) 2) 200,
     flask_two_users_one_post)
  /\ FastAPI.get_users 0 10 None fastapi_two_users_one_post
     = FastAPI.Response 200
         (FastAPI.UserList (FastAPI.users fastapi_two_users_one_post)).
Proof. split; reflexivity. Qed.

(** C8, amended: the FastAPI listing takes [skip], [limit] and [search]
    and answers 200 with the list alone: the users whose lower-cased name
    contains the lower-cased search term (all users when the term is
    absent or empty), without the first [skip] of them and cut to [limit]
    entries.  The Flask listing reads no query parameter and answers 200
    with all users and their number, whatever the request. *)
Theorem get_users_listing :
  (forall (skip limit : Z) (search : option string) (st : FastAPI.state),
      0 <= skip -> 1 <= limit ->
      FastAPI.get_users skip limit search st
      = FastAPI.Response 200
          (FastAPI.UserList
             (firstn (Z.to_nat limit)
                (skipn (Z.to_nat skip)
                   (match search with
                    | Some (String _ _ as term) =>
                        List.filter
                          (fun u => Py.contains (Py.lower term)
                                      (Py.lower (FastAPI.User.name u)))
                          (FastAPI.users st)
                    | _ => FastAPI.users st
                    end)))))
  /\ (forall (request : Flask.Request) (st : Flask.state),
         Flask.handle Flask.GET_users request st
         = (Flask.Response
              (Flask.Users (Flask.users st) (List.length (Flask.users st)))
              200,
            st)).
Proof.
  split.
  - intros skip limit search st Hskip Hlimit. unfold FastAPI.get_users.
    rewrite slice_skip_limit by lia. reflexivity.
  - intros request st. reflexivity.
Qed.

Lemma get_users_listing_witness :
  (0 <= 0 /\ 1 <= 1)
  /\ FastAPI.get_users 0 1 (Some "BO") fastapi_two_users_one_post
     = FastAPI.Response 200
         (FastAPI.UserList
            [FastAPI.User.mk 2 "Bob" "bob@example.com" 25 101]).
Proof.
  split; [lia|].
  apply (proj1 get_users_listing 0 1 (Some "BO") fastapi_two_users_one_post);
    lia.
Defined.

(** ** Creating a user with a registered email *)

Lemma truthy_dict_nonempty (data : gmap string Py.value) (key : string) :
  Py.truthy (Py.dict_get data key) = true -> data <> ∅.
Proof. intros H ->. now rewrite dict_get_empty in H. Qed.

(** C2, as the claim states it, fails on the Flask service: a create-user
    request that repeats a registered email but carries no name is
    answered with 400, not 409, because the required fields are checked
    before the email is looked up. *)
Lemma create_user_duplicate_email_counterexample :
  (exists u data,
      In u (Flask.users flask_two_users_one_post)
      /\ Flask.json flask_email_only = Some data
      /\ Flask.User.email u = Py.dict_get data "email")
  /\ Flask.create_user flask_email_only flask_two_users_one_post
     = (Flask.Response (Flask.Error "Name is required") 400,
        flask_two_users_one_post).
Proof.
  split.
  - eexists. eexists. split; [left; reflexivity|].
    split; [reflexivity|]. vm_compute. reflexivity.
  - vm_compute. reflexivity.
Qed.

(** C2, amended: a create-user request whose email equals that of a
    stored user is answered with 409 and leaves the stores as they were,
    for every model handed to the FastAPI handler and for every Flask
    request body with a non-empty name and a non-empty email. *)
Theorem create_user_duplicate_email_409 :
  (forall (now : FastAPI.datetime) (user : FastAPI.UserCreate.t)
          (st : FastAPI.state),
      (exists u, In u (FastAPI.users st)
                 /\ FastAPI.User.email u = FastAPI.UserCreate.email user) ->
      FastAPI.create_user now user st
      = (FastAPI.HTTPException 409 "Email already exists", st))
  /\ (forall (args : list (string * string)) (data : gmap string Py.value)
             (st : Flask.state),
         Py.truthy (Py.dict_get data "name") = true ->
         Py.truthy (Py.dict_get data "email") = true ->
         (exists u, In u (Flask.users st)
                    /\ Flask.User.email u = Py.dict_get data "email") ->
         Flask.create_user (Flask.mkRequest args (Some data)) st
         = (Flask.Response (Flask.Error "Email already exists") 409, st)).
Proof.
  split.
  - intros now user st (u & Hin & Hemail). unfold FastAPI.create_user.
    rewrite (any_true _ _ u Hin); [reflexivity|].
    rewrite Hemail. apply String.eqb_refl.
  - intros args data st Hname Hmail (u & Hin & Hemail).
    unfold Flask.create_user. simpl.
    destruct (decide (data = ∅)) as [Hempty|_].
    + now apply truthy_dict_nonempty in Hname.
    + rewrite Hname, Hmail. simpl.
      rewrite (any_true _ _ u Hin); [reflexivity|].
      rewrite Hemail. apply eq_value_refl.
Qed.

Lemma create_user_duplicate_email_409_witness :
  (FastAPI.create_user 200 fastapi_alice_again fastapi_two_users_one_post
   = (FastAPI.HTTPException 409 "Email already exists",
      fastapi_two_users_one_post))
  /\ (Flask.create_user flask_alice_again flask_two_users_one_post
      = (Flask.Response (Flask.Error "Email already exists") 409,
         flask_two_users_one_post)).
Proof.
  split.
  - apply (proj1 create_user_duplicate_email_409
             200 fastapi_alice_again fastapi_two_users_one_post).
    eexists. split; [left; reflexivity | reflexivity].
  - apply (proj2 create_user_duplicate_email_409 []
             {[ "name" := Py.VStr "Alice B.";
                "email" := Py.VStr "alice@example.com" ]}
             flask_two_users_one_post).
    + vm_compute. reflexivity.
    + vm_compute. reflexivity.
    + eexists. split; [left; reflexivity | vm_compute; reflexivity].
Defined.

(** ** Creating a post for a user that does not exist *)

(** C3, as the claim states it, fails on the Flask service: a complete
    create-post request naming user 0, an identifier no user has, is
    answered with 400 ("user_id is required"), not 404. *)
Lemma create_post_unknown_user_counterexample :
  (forall u, In u (Flask.users flask_two_users_one_post) ->
             Py.eq_value (Py.VInt (Flask.User.id u)) (Py.VInt 0) = false)
  /\ Flask.create_post flask_post_user_zero flask_two_users_one_post
     = (Flask.Response (Flask.Error "user_id is required") 400,
        flask_two_users_one_post).
Proof.
  split.
  - intros u [<- | [<- | []]]; reflexivity.
  - vm_compute. reflexivity.
Qed.

(** The FastAPI handler looks up the identifier given to its dependency
    and stores the [user_id] of the body as it comes: with the dependency
    resolved to user 1, a body naming user 7, who does not exist, is
    accepted. *)
Lemma fastapi_create_post_body_user_id_unchecked :
  FastAPI.create_post 200 1 fastapi_post_body fastapi_two_users_one_post
  = (FastAPI.Response 201
       (FastAPI.OnePost (FastAPI.Post.mk 2 "Title" "Text" 7 "Alice" 200)),
     FastAPI.mkState (FastAPI.users fastapi_two_users_one_post)
       (FastAPI.posts fastapi_two_users_one_post
          ++ [FastAPI.Post.mk 2 "Title" "Text" 7 "Alice" 200])).
Proof. reflexivity. Qed.

(** C3, amended: a create-post request whose user identifier matches no
    stored user is answered with 404 and leaves both stores as they were:
    on FastAPI for the identifier handed to the [get_user_by_id]
    dependency, on Flask for every body with non-empty title and content
    and a [user_id] that is neither absent nor zero nor empty.  A Flask
    create-post request answered with anything but 201 leaves the stores
    as they were. *)
Theorem create_post_unknown_user_404 :
  (forall (now : FastAPI.datetime) (user_id : Z) (post : FastAPI.PostCreate.t)
          (st : FastAPI.state),
      (forall u, In u (FastAPI.users st) -> FastAPI.User.id u <> user_id) ->
      FastAPI.create_post now user_id post st
      = (FastAPI.HTTPException 404 "User not found", st))
  /\ (forall (args : list (string * string)) (data : gmap string Py.value)
             (st : Flask.state),
         Py.truthy (Py.dict_get data "title") = true ->
         Py.truthy (Py.dict_get data "content") = true ->
         Py.truthy (Py.dict_get data "user_id") = true ->
         (forall u, In u (Flask.users st) ->
                    Py.eq_value (Py.VInt (Flask.User.id u))
                                (Py.dict_get data "user_id") = false) ->
         Flask.create_post (Flask.mkRequest args (Some data)) st
         = (Flask.Response (Flask.Error "User not found") 404, st))
  /\ (forall (request : Flask.Request) (st : Flask.state),
         Flask.status_code (fst (Flask.create_post request st)) <> 201 ->
         snd (Flask.create_post request st) = st).
Proof.
  split; [|split].
  - intros now user_id post st Hnone.
    unfold FastAPI.create_post, FastAPI.get_user_by_id.
    rewrite next_or_none_none; [reflexivity|].
    intros u Hu. apply Z.eqb_neq. now apply Hnone.
  - intros args data st Htitle Hcontent Huid Hnone.
    unfold Flask.create_post. simpl.
    destruct (decide (data = ∅)) as [Hempty|_].
    + now apply truthy_dict_nonempty in Htitle.
    + rewrite Htitle, Hcontent, Huid. simpl.
      rewrite next_or_none_none; [reflexivity | exact Hnone].
  - intros request st. unfold Flask.create_post.
    destruct (Flask.json request) as [data|]; [|reflexivity].
    destruct (decide (data = ∅)); [reflexivity|].
    destruct (negb (Py.truthy (Py.dict_get data "title"))); [reflexivity|].
    destruct (negb (Py.truthy (Py.dict_get data "content"))); [reflexivity|].
    destruct (negb (Py.truthy (Py.dict_get data "user_id"))); [reflexivity|].
    destruct (Py.next_or_none _ (Flask.users st)); [|reflexivity].
    simpl. intros H. now contradict H.
Qed.

Lemma create_post_unknown_user_404_witness :
  (FastAPI.create_post 200 7 fastapi_post_body fastapi_two_users_one_post
   = (FastAPI.HTTPException 404 "User not found",
      fastapi_two_users_one_post))
  /\ (Flask.create_post flask_post_unknown_user flask_two_users_one_post
      = (Flask.Response (Flask.Error "User not found") 404,
         flask_two_users_one_post))
  /\ (Flask.status_code
        (fst (Flask.create_post flask_post_user_zero
                flask_two_users_one_post)) <> 201
      /\ snd (Flask.create_post flask_post_user_zero
                flask_two_users_one_post)
         = flask_two_users_one_post).
Proof.
  split; [|split].
  - apply (proj1 create_post_unknown_user_404
             200 7 fastapi_post_body fastapi_two_users_one_post).
    intros u [<- | [<- | []]]; discriminate.
  - apply (proj1 (proj2 create_post_unknown_user_404) []
             {[ "title" := Py.VStr "Title"; "content" := Py.VStr "Text";
                "user_id" := Py.VInt 7 ]}
             flask_two_users_one_post).
    + vm_compute. reflexivity.
    + vm_compute. reflexivity.
    + vm_compute. reflexivity.
    + intros u [<- | [<- | []]]; vm_compute; reflexivity.
  - assert (Hstatus :
      Flask.status_code
        (fst (Flask.create_post flask_post_user_zero
                flask_two_users_one_post)) <> 201)
      by (vm_compute; discriminate).
    split; [exact Hstatus|].
    apply (proj2 (proj2 create_post_unknown_user_404)
             flask_post_user_zero flask_two_users_one_post Hstatus).
Defined.

(** ** Identifiers *)

Lemma fastapi_serve_reachable (rs : list (FastAPI.datetime * FastAPI.request))
      (st : FastAPI.state) :
  FastAPI.reachable st -> FastAPI.reachable (snd (FastAPI.serve rs st)).
Proof.
  revert st. induction rs as [|[now r] rs IH]; intros st Hst; simpl.
  - exact Hst.
  - specialize (IH _ (FastAPI.reachable_step now r st Hst)).
    destruct (FastAPI.handle now r st) as [resp st1]. simpl in IH.
    destruct (FastAPI.serve rs st1) as [resps st2]. exact IH.
Qed.

Lemma flask_serve_reachable (rs : list (Flask.route * Flask.Request))
      (st : Flask.state) :
  Flask.reachable st -> Flask.reachable (snd (Flask.serve rs st)).
Proof.
  revert st. induction rs as [|[r request] rs IH]; intros st Hst; simpl.
  - exact Hst.
  - specialize (IH _ (Flask.reachable_step r request st Hst)).
    destruct (Flask.handle r request st) as [resp st1]. simpl in IH.
    destruct (Flask.serve rs st1) as [resps st2]. exact IH.
Qed.

(** A user created with an email that no stored user has is answered with
    201 and the new record, numbered one more than the number of stored
    users and appended to them. *)
Lemma fastapi_create_user_fresh (now : FastAPI.datetime)
      (user : FastAPI.UserCreate.t) (st : FastAPI.state) :
  (forall u, In u (FastAPI.users st) ->
             FastAPI.User.email u <> FastAPI.UserCreate.email user) ->
  let new_user :=
    FastAPI.User.mk (Z.of_nat (List.length (FastAPI.users st)) + 1)
      (FastAPI.UserCreate.name user) (FastAPI.UserCreate.email user)
      (FastAPI.UserCreate.age user) now in
  FastAPI.create_user now user st
  = (FastAPI.Response 201 (FastAPI.OneUser new_user),
     FastAPI.mkState (FastAPI.users st ++ [new_user]) (FastAPI.posts st)).
Proof.
  intros Hfresh. unfold FastAPI.create_user.
  destruct (Py.any _ (FastAPI.users st)) eqn:Hany; [|reflexivity].
  apply existsb_exists in Hany. destruct Hany as (u & Hin & Heq).
  apply String.eqb_eq in Heq. now apply Hfresh in Hin.
Qed.

Lemma flask_create_user_fresh (args : list (string * string))
      (data : gmap string Py.value) (st : Flask.state) :
  Py.truthy (Py.dict_get data "name") = true ->
  Py.truthy (Py.dict_get data "email") = true ->
  (forall u, In u (Flask.users st) ->
             Py.eq_value (Flask.User.email u) (Py.dict_get data "email")
             = false) ->
  let new_user :=
    Flask.User.mk (Z.of_nat (List.length (Flask.users st)) + 1)
      (Py.dict_get data "name") (Py.dict_get data "email") in
  Flask.create_user (Flask.mkRequest args (Some data)) st
  = (Flask.Response (Flask.OneUser new_user) 201,
     Flask.mkState (Flask.users st ++ [new_user]) (Flask.posts st)).
Proof.
  intros Hname Hmail Hfresh. unfold Flask.create_user. simpl.
  destruct (decide (data = ∅)) as [Hempty|_].
  - now apply truthy_dict_nonempty in Hname.
  - rewrite Hname, Hmail. simpl.
    destruct (Py.any _ (Flask.users st)) eqn:Hany; [|reflexivity].
    apply existsb_exists in Hany. destruct Hany as (u & Hin & Heq).
    rewrite (Hfresh u Hin) in Heq. discriminate.
Qed.

(** C1 (the code departs from the claim): after two users were created
    and the first one deleted, a user with a new email is created with
    201 and identifier 2, the number of stored users plus one, although
    identifiers 1 and 2 were already handed out and 2 still belongs to a
    stored user.  The same happens in both services. *)
Theorem create_user_reuses_identifier_after_delete :
  (let '(resps, st) :=
     FastAPI.serve fastapi_create_create_delete FastAPI.init in
   omap FastAPI.assigned_user_id resps = [1; 2]
   /\ List.map FastAPI.User.id (FastAPI.users st) = [2]
   /\ Py.any (fun u => String.eqb (FastAPI.User.email u)
                                   (FastAPI.UserCreate.email fastapi_carol))
             (FastAPI.users st) = false
   /\ fst (FastAPI.create_user 103 fastapi_carol st)
      = FastAPI.Response 201
          (FastAPI.OneUser
             (FastAPI.User.mk 2 "Carol" "carol@example.com" 41 103)))
  /\ (let '(resps, st) :=
        Flask.serve flask_create_create_delete Flask.init in
      omap Flask.assigned_user_id resps = [1; 2]
      /\ List.map Flask.User.id (Flask.users st) = [2]
      /\ Py.any (fun u => Py.eq_value (Flask.User.email u)
                                      (Py.VStr "carol@example.com"))
                (Flask.users st) = false
      /\ fst (Flask.create_user flask_carol st)
         = Flask.Response
             (Flask.OneUser
                (Flask.User.mk 2 (Py.VStr "Carol")
                   (Py.VStr "carol@example.com")))
             201).
Proof. split; vm_compute; repeat split; reflexivity. Qed.

(** Where the stored identifiers are pairwise distinct, a deleted
    identifier is no longer found. *)
Lemma fastapi_delete_then_get_distinct_ids (k : Z) (st : FastAPI.state) :
  List.NoDup (List.map FastAPI.User.id (FastAPI.users st)) ->
  FastAPI.status_code (fst (FastAPI.delete_user k st)) = 204 ->
  FastAPI.get_user k (snd (FastAPI.delete_user k st))
  = FastAPI.HTTPException 404 "User not found".
Proof.
  intros Hnodup. unfold FastAPI.delete_user.
  destruct (Py.next_or_none _ (FastAPI.users st)) as [user|] eqn:Hfind;
    simpl; intros Hstatus; [|discriminate].
  destruct (fastapi_remove_by_id k _ user Hfind)
    as (l1 & l2 & Hus & Hid & Hl1 & Hrem).
  unfold FastAPI.get_user. simpl. rewrite Hrem.
  rewrite next_or_none_none; [reflexivity|].
  intros v Hv. apply Z.eqb_neq.
  apply in_app_or in Hv. destruct Hv as [Hv | Hv]; [now apply Hl1|].
  rewrite Hus, map_app in Hnodup. simpl in Hnodup.
  apply NoDup_remove_2 in Hnodup. intros Heq. apply Hnodup.
  apply in_or_app. right. rewrite Hid, <- Heq. now apply in_map.
Qed.

Lemma flask_delete_then_get_distinct_ids (k : Z) (st : Flask.state) :
  List.NoDup (List.map Flask.User.id (Flask.users st)) ->
  Flask.status_code (fst (Flask.delete_user k st)) = 204 ->
  Flask.get_user k (snd (Flask.delete_user k st))
  = Flask.Response (Flask.Error "User not found") 404.
Proof.
  intros Hnodup. unfold Flask.delete_user.
  destruct (Py.next_or_none _ (Flask.users st)) as [user|] eqn:Hfind;
    simpl; intros Hstatus; [|discriminate].
  destruct (flask_remove_by_id k _ user Hfind)
    as (l1 & l2 & Hus & Hid & Hl1 & Hrem).
  unfold Flask.get_user. simpl. rewrite Hrem.
  rewrite next_or_none_none; [reflexivity|].
  intros v Hv. apply Z.eqb_neq.
  apply in_app_or in Hv. destruct Hv as [Hv | Hv]; [now apply Hl1|].
  rewrite Hus, map_app in Hnodup. simpl in Hnodup.
  apply NoDup_remove_2 in Hnodup. intros Heq. apply Hnodup.
  apply in_or_app. right. rewrite Hid, <- Heq. now apply in_map.
Qed.

(** C4 (the code departs from the claim): in the state reached by
    creating two users, deleting user 1 and creating a third user, two
    stored users carry identifier 2.  Deleting user 2 is answered with 204
    and removes the older of the two; the get for identifier 2 that
    follows is answered with 200 and the younger one.  The same happens
    in both services. *)
Theorem get_user_after_delete_finds_namesake :
  (let '(resps, st) :=
     FastAPI.serve fastapi_delete_duplicate_id FastAPI.init in
   FastAPI.reachable st
   /\ List.last resps (FastAPI.Response 0 FastAPI.NoContent)
      = FastAPI.Response 204 FastAPI.NoContent
   /\ FastAPI.get_user 2 st
      = FastAPI.Response 200
          (FastAPI.OneUser
             (FastAPI.User.mk 2 "Carol" "carol@example.com" 41 103)))
  /\ (let '(resps, st) :=
        Flask.serve flask_delete_duplicate_id Flask.init in
      Flask.reachable st
      /\ List.last resps (Flask.Response Flask.Empty 0)
         = Flask.Response Flask.Empty 204
      /\ Flask.get_user 2 st
         = Flask.Response
             (Flask.OneUser
                (Flask.User.mk 2 (Py.VStr "Carol")
                   (Py.VStr "carol@example.com")))
             200).
Proof.
  split.
  - pose proof (fastapi_serve_reachable fastapi_delete_duplicate_id
                  FastAPI.init FastAPI.reachable_init) as Hreach.
    destruct (FastAPI.serve fastapi_delete_duplicate_id FastAPI.init)
      as [resps st] eqn:Hserve.
    vm_compute in Hserve. injection Hserve as <- <-.
    split; [exact Hreach|]. split; reflexivity.
  - pose proof (flask_serve_reachable flask_delete_duplicate_id
                  Flask.init Flask.reachable_init) as Hreach.
    destruct (Flask.serve flask_delete_duplicate_id Flask.init)
      as [resps st] eqn:Hserve.
    vm_compute in Hserve. injection Hserve as <- <-.
    split; [exact Hreach|]. split; vm_compute; reflexivity.
Qed.

(** ** Create, then get *)

(** A newly created user is the one returned for its identifier as long
    as no stored user carries that identifier already. *)
Lemma fastapi_create_user_then_get (now : FastAPI.datetime)
      (user : FastAPI.UserCreate.t) (st : FastAPI.state) :
  (forall u, In u (FastAPI.users st) ->
             FastAPI.User.email u <> FastAPI.UserCreate.email user) ->
  (forall u, In u (FastAPI.users st) ->
             FastAPI.User.id u
             <> Z.of_nat (List.length (FastAPI.users st)) + 1) ->
  FastAPI.get_user (Z.of_nat (List.length (FastAPI.users st)) + 1)
    (snd (FastAPI.create_user now user st))
  = FastAPI.Response 200
      (FastAPI.OneUser
         (FastAPI.User.mk (Z.of_nat (List.length (FastAPI.users st)) + 1)
            (FastAPI.UserCreate.name user) (FastAPI.UserCreate.email user)
            (FastAPI.UserCreate.age user) now)).
Proof.
  intros Hfresh Hid. rewrite fastapi_create_user_fresh by exact Hfresh.
  unfold FastAPI.get_user. simpl. rewrite next_or_none_app.
  rewrite next_or_none_none.
  - simpl. now rewrite Z.eqb_refl.
  - intros u Hu. apply Z.eqb_neq. now apply Hid.
Qed.

(** The Flask service has no way to delete a post, so its post
    identifiers stay within 1 .. number of posts. *)
Lemma flask_post_ids_bounded (st : Flask.state) :
  Flask.reachable st ->
  forall p, In p (Flask.posts st) ->
            1 <= Flask.Post.id p <= Z.of_nat (List.length (Flask.posts st)).
Proof.
  induction 1 as [|r request st Hreach IH].
  - intros p [].
  - destruct r; simpl; try exact IH.
    + unfold Flask.create_user.
      destruct (Flask.json request) as [data|]; [|exact IH].
      repeat (match goal with
              | |- context [if ?c then _ else _] => destruct c; [exact IH|]
              end).
      exact IH.
    + unfold Flask.delete_user.
      destruct (Py.next_or_none _ (Flask.users st)); exact IH.
    + unfold Flask.create_post.
      destruct (Flask.json request) as [data|]; [|exact IH].
      repeat (match goal with
              | |- context [if ?c then _ else _] => destruct c; [exact IH|]
              end).
      destruct (Py.next_or_none _ (Flask.users st)) as [user|]; [|exact IH].
      simpl. intros p Hp. rewrite length_app. simpl.
      apply in_app_or in Hp. destruct Hp as [Hp | [<- | []]].
      * specialize (IH p Hp). lia.
      * simpl. lia.
Qed.

(** Hence a post created on the Flask service is the one returned for its
    identifier, in every state the service can reach. *)
Lemma flask_create_post_then_get (request : Flask.Request)
      (st : Flask.state) (p : Flask.Post.t) :
  Flask.reachable st ->
  fst (Flask.create_post request st) = Flask.Response (Flask.OnePost p) 201 ->
  Flask.get_post (Flask.Post.id p) (snd (Flask.create_post request st))
  = Flask.Response (Flask.OnePost p) 200.
Proof.
  intros Hreach. pose proof (flask_post_ids_bounded st Hreach) as Hbound.
  unfold Flask.create_post.
  destruct (Flask.json request) as [data|]; [|discriminate].
  repeat (match goal with
          | |- context [if ?c then _ else _] => destruct c; [discriminate|]
          end).
  destruct (Py.next_or_none _ (Flask.users st)) as [user|]; [|discriminate].
  simpl. intros Hresp. injection Hresp as <-.
  unfold Flask.get_post. simpl. rewrite next_or_none_app.
  rewrite next_or_none_none.
  - simpl. now rewrite Z.eqb_refl.
  - intros q Hq. apply Z.eqb_neq. specialize (Hbound q Hq). lia.
Qed.

(** C7 (the code departs from the claim): after two users were created
    and the first one deleted, creating Carol is answered with 201 and a
    record with identifier 2; the get for identifier 2 that follows
    returns Bob's record, not hers.  The same happens in both services. *)
Theorem create_user_then_get_returns_other_record :
  (let st := snd (FastAPI.serve fastapi_create_create_delete FastAPI.init) in
   fst (FastAPI.create_user 103 fastapi_carol st)
   = FastAPI.Response 201
       (FastAPI.OneUser
          (FastAPI.User.mk 2 "Carol" "carol@example.com" 41 103))
   /\ FastAPI.get_user 2 (snd (FastAPI.create_user 103 fastapi_carol st))
      = FastAPI.Response 200
          (FastAPI.OneUser
             (FastAPI.User.mk 2 "Bob" "bob@example.com" 25 101)))
  /\ (let st := snd (Flask.serve flask_create_create_delete Flask.init) in
      fst (Flask.create_user flask_carol st)
      = Flask.Response
          (Flask.OneUser
             (Flask.User.mk 2 (Py.VStr "Carol")
                (Py.VStr "carol@example.com")))
          201
      /\ Flask.get_user 2 (snd (Flask.create_user flask_carol st))
         = Flask.Response
             (Flask.OneUser
                (Flask.User.mk 2 (Py.VStr "Bob")
                   (Py.VStr "bob@example.com")))
             200).
Proof. split; vm_compute; split; reflexivity. Qed.

(** * Further properties *)

(** ** Strings: splitting and joining *)

Lemma append_nil_r (s : string) : s +:+ EmptyString = s.
Proof.
  induction s as [|c s IH]; [reflexivity|].
  change (String c (s +:+ EmptyString) = String c s). now rewrite IH.
Qed.

Lemma append_cons (c : ascii) (a b : string) :
  String c a +:+ b = String c (a +:+ b).
Proof. reflexivity. Qed.

Lemma append_snoc (acc : string) (c : ascii) (s : string) :
  (acc +:+ String c EmptyString) +:+ s = acc +:+ String c s.
Proof. now rewrite append_assoc. Qed.




(** Passing over the rest of a separator that has just been matched. *)
Lemma split_go_skip (sep : string) (budget : option nat) (acc p rest : string) :
  Py.split_go sep budget (String.length p) acc (p +:+ rest)
  = Py.split_go sep budget 0 acc rest.
Proof.
  induction p as [|c p IH]; [reflexivity|].
  rewrite append_cons. simpl. exact IH.
Qed.

Lemma join_cons (sep x : string) (l : list string) :
  l <> [] -> Py.join sep (x :: l) = x +:+ sep +:+ Py.join sep l.
Proof. destruct l; [congruence | reflexivity]. Qed.

(** One step of the scan at a position where the separator matches. *)
Lemma split_go_match (sep : string) (budget : option nat) (acc rest : string) :
  sep <> EmptyString ->
  budget <> Some O ->
  Py.split_go sep budget 0 acc (sep +:+ rest)
  = acc :: Py.split_go sep (option_map Nat.pred budget) 0 EmptyString rest.
Proof.
  intros Hsep Hbudget. destruct sep as [|c sep']; [congruence|].
  rewrite append_cons. cbn [Py.split_go].
  assert (Hpre : String.prefix (String c sep') (String c (sep' +:+ rest)) = true).
  { clear. rewrite <- append_cons. generalize (String c sep'). intros p.
    induction p as [|d p IH]; [now destruct rest|]. rewrite append_cons. simpl.
    destruct (ascii_dec d d); [exact IH | congruence]. }
  rewrite Hpre.
  replace (match budget with Some O => false | _ => true end) with true
    by (destruct budget as [[|n]|]; congruence).
  simpl andb. cbn [String.length Nat.pred]. now rewrite split_go_skip.
Qed.


Lemma contains_suffix (sep a1 a2 : string) :
  Py.contains sep (a1 +:+ a2) = false -> Py.contains sep a2 = false.
Proof.
  induction a1 as [|c a1 IH]; [trivial|].
  rewrite append_cons. cbn [Py.contains]. intros H.
  apply orb_false_elim in H. apply IH, H.
Qed.

Lemma contains_head (sep s : string) :
  Py.contains sep s = false -> String.prefix sep s = false.
Proof.
  destruct s; cbn [Py.contains]; intros H; now apply orb_false_elim in H.
Qed.

(** The scan up to the first place where the separator matches: when no
    match starts inside [a], the first piece of [a sep rest] is [a]. *)
Lemma split_go_first (sep : string) (budget : option nat) (rest : string) :
  sep <> EmptyString ->
  budget <> Some O ->
  forall a acc,
    (forall a1 a2, a = a1 +:+ a2 -> a2 <> EmptyString ->
                   String.prefix sep (a2 +:+ sep +:+ rest) = false) ->
    Py.split_go sep budget 0 acc (a +:+ sep +:+ rest)
    = (acc +:+ a)
        :: Py.split_go sep (option_map Nat.pred budget) 0 EmptyString rest.
Proof.
  intros Hsep Hbudget. induction a as [|c a IH]; intros acc Hclean.
  - rewrite append_nil_r.
    change (EmptyString +:+ sep +:+ rest) with (sep +:+ rest).
    now apply split_go_match.
  - rewrite append_cons. cbn [Py.split_go].
    rewrite <- append_cons.
    rewrite (Hclean EmptyString (String c a)) by (reflexivity || discriminate).
    rewrite andb_false_r. rewrite IH.
    + now rewrite append_snoc.
    + intros a1 a2 -> Ha2. apply (Hclean (String c a1) a2); [reflexivity|exact Ha2].
Qed.

(** Nothing is split off a text in which the separator does not occur,
    nor once the allowed number of splits is used up. *)
Lemma split_go_none (sep : string) (budget : option nat) :
  forall s acc,
    Py.contains sep s = false \/ budget = Some O ->
    sep <> EmptyString ->
    Py.split_go sep budget 0 acc s = [acc +:+ s].
Proof.
  induction s as [|c s IH]; intros acc H Hsep.
  - simpl. now rewrite append_nil_r.
  - cbn [Py.split_go].
    assert (Hno : (match budget with Some O => false | _ => true end)
                  && String.prefix sep (String c s) = false).
    { destruct H as [H | ->]; [|reflexivity].
      apply contains_head in H. rewrite H. apply andb_false_r. }
    rewrite Hno, IH; [now rewrite append_snoc | | exact Hsep].
    destruct H as [H | H]; [left | now right].
    cbn [Py.contains] in H. now apply orb_false_elim in H.
Qed.

Lemma prefix_cons (a b : ascii) (s1 s2 : string) :
  String.prefix (String a s1) (String b s2)
  = if ascii_dec a b then String.prefix s1 s2 else false.
Proof. reflexivity. Qed.

Lemma prefix_nil (s : string) : String.prefix EmptyString s = true.
Proof. now destruct s. Qed.

Lemma prefix_crlf_clean (a2 rest : string) :
  a2 <> EmptyString ->
  String.prefix HttpDemo.CRLF a2 = false ->
  String.prefix HttpDemo.CRLF (a2 +:+ HttpDemo.CRLF +:+ rest) = false.
Proof.
  intros Hne H. destruct a2 as [|c t]; [congruence|].
  rewrite append_cons. unfold HttpDemo.CRLF in *.
  rewrite prefix_cons in *.
  destruct (ascii_dec "013" c); [|reflexivity].
  destruct t as [|d t].
  - change (EmptyString +:+ String "013" (String "010" EmptyString) +:+ rest)
      with (String "013" (String "010" (EmptyString +:+ rest))).
    rewrite prefix_cons. now destruct (ascii_dec "010" "013").
  - rewrite append_cons. rewrite prefix_cons in *.
    destruct (ascii_dec "010" d); [|reflexivity].
    now rewrite prefix_nil in H.
Qed.

Lemma prefix_char_clean (ch : ascii) (a2 rest : string) :
  a2 <> EmptyString ->
  String.prefix (String ch EmptyString) a2 = false ->
  String.prefix (String ch EmptyString) (a2 +:+ rest) = false.
Proof.
  intros Hne H. destruct a2 as [|c t]; [congruence|].
  rewrite append_cons. rewrite prefix_cons in *.
  destruct (ascii_dec ch c); [|reflexivity].
  now rewrite prefix_nil in H.
Qed.

(** The first line of a text is what precedes its first CRLF. *)
Lemma split_crlf_first (a rest acc : string) :
  Py.contains HttpDemo.CRLF a = false ->
  Py.split_go HttpDemo.CRLF None 0 acc (a +:+ HttpDemo.CRLF +:+ rest)
  = (acc +:+ a) :: Py.split HttpDemo.CRLF rest.
Proof.
  intros Hclean. unfold Py.split.
  apply (split_go_first HttpDemo.CRLF None rest); [discriminate..|].
  intros a1 a2 -> Ha2. apply prefix_crlf_clean; [exact Ha2|].
  apply contains_head. now apply contains_suffix in Hclean.
Qed.

(** Splitting at the first occurrence of a one-character separator. *)
Lemma split_char_first (ch : ascii) (n : nat) (a rest acc : string) :
  Py.contains (String ch EmptyString) a = false ->
  Py.split_go (String ch EmptyString) (Some (S n)) 0 acc
    (a +:+ String ch EmptyString +:+ rest)
  = (acc +:+ a)
      :: Py.split_go (String ch EmptyString) (Some n) 0 EmptyString rest.
Proof.
  intros Hclean.
  apply (split_go_first (String ch EmptyString) (Some (S n)) rest);
    [discriminate..|].
  intros a1 a2 -> Ha2. apply prefix_char_clean; [exact Ha2|].
  apply contains_head. now apply contains_suffix in Hclean.
Qed.



(** The first line of a text written line by line. *)
Lemma split_join_head (x : string) (others : list string) :
  Py.contains HttpDemo.CRLF x = false ->
  hd EmptyString (Py.split HttpDemo.CRLF (Py.join HttpDemo.CRLF (x :: others)))
  = x.
Proof.
  intros Hx. destruct others as [|y others].
  - unfold Py.split. simpl Py.join.
    rewrite split_go_none; [reflexivity | now left | discriminate].
  - rewrite join_cons by discriminate. unfold Py.split.
    now rewrite split_crlf_first.
Qed.

(** ** [parse_http_response] on well-formed and on truncated responses *)


Lemma split_status_line_two_fields (p c : string) :
  Py.contains " " p = false ->
  Py.contains " " c = false ->
  Py.split_max " " 2 (p +:+ " " +:+ c) = [p; c].
Proof.
  intros Hp Hc. unfold Py.split_max.
  rewrite (split_char_first " " 1 p) by exact Hp.
  rewrite split_go_none; [reflexivity | now left | discriminate].
Qed.

Lemma split_status_line_one_field (p : string) :
  Py.contains " " p = false -> Py.split_max " " 2 p = [p].
Proof.
  intros Hp. unfold Py.split_max.
  rewrite split_go_none; [reflexivity | now left | discriminate].
Qed.














(** X4: a response whose first line has fewer than three fields, that is
    no space or a single one, is not parsed at all (the unpacking of the
    status line raises), whatever lines follow; the empty response is one
    of them. *)
Theorem parse_http_response_short_status_line
        (p c : string) (others : list string) :
  Py.contains " " p = false ->
  Py.contains " " c = false ->
  Py.contains HttpDemo.CRLF (p +:+ " " +:+ c) = false ->
  Py.contains HttpDemo.CRLF p = false ->
  HttpDemo.parse_http_response (Py.join HttpDemo.CRLF (p :: others)) = None
  /\ HttpDemo.parse_http_response
       (Py.join HttpDemo.CRLF ((p +:+ " " +:+ c) :: others)) = None.
Proof.
  intros Hp Hc Hline2 Hline1. unfold HttpDemo.parse_http_response. split.
  - rewrite split_join_head by exact Hline1.
    now rewrite split_status_line_one_field.
  - rewrite split_join_head by exact Hline2.
    now rewrite split_status_line_two_fields.
Qed.

Lemma parse_http_response_short_status_line_witness :
  HttpDemo.parse_http_response (Py.join HttpDemo.CRLF [EmptyString]) = None
  /\ HttpDemo.parse_http_response
       (Py.join HttpDemo.CRLF
          ((EmptyString +:+ " " +:+ "200") :: ["Server: demo"; ""; "x"]))
     = None.
Proof.
  split.
  - apply (parse_http_response_short_status_line "" "200" []); reflexivity.
  - apply (parse_http_response_short_status_line "" "200"
             ["Server: demo"; ""; "x"]); reflexivity.
Defined.

(** ** The serialized request in general *)

Lemma concat_empty_cons (x : string) (xs : list string) :
  String.concat EmptyString (x :: xs)
  = x +:+ String.concat EmptyString xs.
Proof.
  destruct xs as [|y ys]; [simpl; now rewrite append_nil_r | reflexivity].
Qed.

Lemma join_app_lines (sep : string) (front tail : list string) :
  tail <> [] ->
  Py.join sep (front ++ tail)
  = String.concat EmptyString (List.map (fun l => l +:+ sep) front)
    +:+ Py.join sep tail.
Proof.
  intros Htail. induction front as [|l front IH]; [reflexivity|].
  change ((l :: front) ++ tail) with (l :: (front ++ tail)).
  rewrite join_cons by (destruct front, tail; simpl; congruence).
  rewrite IH. cbn [List.map]. rewrite concat_empty_cons.
  now rewrite !append_assoc.
Qed.

(** X5: the request text in closed form: the request line, the Host
    header and "Connection: close", then the caller's headers in order,
    every one of these lines followed by one CRLF; after them, for a
    non-empty body, the Content-Length line with the body's length, an
    empty line and the body, and nothing at all otherwise.  A [None] or
    empty header dictionary adds no line; an empty body counts as none. *)
Theorem build_request_closed_form
        (parsed : HttpDemo.ParseResult) (method : string)
        (headers : option (list (string * string))) (body : option string) :
  HttpDemo.build_request parsed method headers body
  = (method +:+ " "
       +:+ (if Py.truthy_str (HttpDemo.path parsed)
            then HttpDemo.path parsed else "/")
       +:+ " HTTP/1.1" +:+ HttpDemo.CRLF)
    +:+ ("Host: " +:+ HttpDemo.fmt_host (HttpDemo.hostname parsed)
           +:+ HttpDemo.CRLF)
    +:+ ("Connection: close" +:+ HttpDemo.CRLF)
    +:+ String.concat EmptyString
          (List.map
             (fun kv => (fst kv +:+ ": " +:+ snd kv) +:+ HttpDemo.CRLF)
             (match headers with Some hs => hs | None => [] end))
    +:+ match body with
        | Some (String _ _ as b) =>
            "Content-Length: " +:+ Py.str_of_nat (String.length b)
              +:+ HttpDemo.CRLF +:+ HttpDemo.CRLF +:+ b
        | _ => EmptyString
        end.
Proof.
  unfold HttpDemo.build_request, HttpDemo.request_lines.
  set (l1 := method +:+ " " +:+ _ +:+ " HTTP/1.1").
  set (l2 := "Host: " +:+ _).
  set (hs := match headers with Some hs => hs | None => [] end).
  set (tail := match body with
               | Some (String _ _ as b) =>
                   ["Content-Length: " +:+ Py.str_of_nat (String.length b);
                    EmptyString; b]
               | _ => [EmptyString]
               end).
  assert (Hlines :
    match body with
    | Some (String _ _ as b) =>
        (match headers with
         | Some hs0 =>
             [l1; l2; "Connection: close"]
               ++ List.map (fun kv => fst kv +:+ ": " +:+ snd kv) hs0
         | None => [l1; l2; "Connection: close"]
         end)
          ++ ["Content-Length: " +:+ Py.str_of_nat (String.length b);
              EmptyString; b]
    | _ =>
        (match headers with
         | Some hs0 =>
             [l1; l2; "Connection: close"]
               ++ List.map (fun kv => fst kv +:+ ": " +:+ snd kv) hs0
         | None => [l1; l2; "Connection: close"]
         end) ++ [EmptyString]
    end
    = ([l1; l2; "Connection: close"]
         ++ List.map (fun kv => fst kv +:+ ": " +:+ snd kv) hs) ++ tail).
  { subst hs tail. destruct headers as [hs0|], body as [[|ch b]|];
      rewrite ?app_nil_r; reflexivity. }
  rewrite Hlines. rewrite join_app_lines.
  2:{ subst tail. destruct body as [[|ch b]|]; discriminate. }
  rewrite map_app, map_map. cbn [List.map app].
  assert (Htail : Py.join HttpDemo.CRLF tail
                  = match body with
                    | Some (String _ _ as b) =>
                        "Content-Length: "
                          +:+ Py.str_of_nat (String.length b)
                          +:+ HttpDemo.CRLF +:+ HttpDemo.CRLF +:+ b
                    | _ => EmptyString
                    end).
  { subst tail. destruct body as [[|ch b]|]; reflexivity. }
  rewrite Htail.
  rewrite !concat_empty_cons. subst l1 l2. now rewrite !append_assoc.
Qed.

(** ** Invariants of the user store *)

Section RemoveFacts.

Context {A : Type}.
Variable eqb : A -> A -> bool.





End RemoveFacts.








(** ** What a request can do to the stores *)

(** X8: whatever the request, the FastAPI handlers answer with one of
    the status codes 200, 201, 204, 404 and 409; an answer other than 201
    and 204 leaves both stores exactly as they were; a 201 appends the
    record it returns at the end of one store and leaves the other
    untouched. *)
Theorem fastapi_handle_effect
        (now : FastAPI.datetime) (r : FastAPI.request) (st : FastAPI.state) :
  let resp := fst (FastAPI.handle now r st) in
  let st' := snd (FastAPI.handle now r st) in
  In (FastAPI.status_code resp) [200; 201; 204; 404; 409]
  /\ (FastAPI.status_code resp <> 201 ->
      FastAPI.status_code resp <> 204 -> st' = st)
  /\ (FastAPI.status_code resp = 201 ->
      (exists u, FastAPI.body resp = FastAPI.OneUser u
                 /\ FastAPI.users st' = FastAPI.users st ++ [u]
                 /\ FastAPI.posts st' = FastAPI.posts st)
      \/ (exists p, FastAPI.body resp = FastAPI.OnePost p
                    /\ FastAPI.posts st' = FastAPI.posts st ++ [p]
                    /\ FastAPI.users st' = FastAPI.users st)).
Proof.
  destruct r; simpl.
  - repeat split; [tauto | discriminate].
  - unfold FastAPI.get_user.
    destruct (Py.next_or_none _ (FastAPI.users st)); simpl;
      (repeat split; [tauto | discriminate]).
  - unfold FastAPI.create_user.
    destruct (Py.any _ (FastAPI.users st)); simpl.
    + repeat split; [tauto | discriminate].
    + split; [tauto|]. split; [congruence|].
      intros _. left. eexists. repeat split.
  - unfold FastAPI.delete_user.
    destruct (Py.next_or_none _ (FastAPI.users st)); simpl.
    + split; [tauto|]. split; [congruence | discriminate].
    + repeat split; [tauto | discriminate].
  - repeat split; [tauto | discriminate].
  - unfold FastAPI.get_post.
    destruct (Py.next_or_none _ (FastAPI.posts st)); simpl;
      (repeat split; [tauto | discriminate]).
  - unfold FastAPI.create_post, FastAPI.get_user_by_id.
    destruct (Py.next_or_none _ (FastAPI.users st)); simpl.
    + split; [tauto|]. split; [congruence|].
      intros _. right. eexists. repeat split.
    + repeat split; [tauto | discriminate].
  - unfold FastAPI.delete_post.
    destruct (Py.next_or_none _ (FastAPI.posts st)); simpl.
    + split; [tauto|]. split; [congruence | discriminate].
    + repeat split; [tauto | discriminate].
Qed.

Lemma fastapi_handle_effect_witness :
  (FastAPI.status_code
     (fst (FastAPI.handle 200 (FastAPI.DELETE_post 9)
             fastapi_two_users_one_post)) <> 201
   /\ FastAPI.status_code
        (fst (FastAPI.handle 200 (FastAPI.DELETE_post 9)
                fastapi_two_users_one_post)) <> 204)
  /\ snd (FastAPI.handle 200 (FastAPI.DELETE_post 9)
            fastapi_two_users_one_post)
     = fastapi_two_users_one_post.
Proof.
  assert (H1 : FastAPI.status_code
                 (fst (FastAPI.handle 200 (FastAPI.DELETE_post 9)
                         fastapi_two_users_one_post)) <> 201)
    by (vm_compute; discriminate).
  assert (H2 : FastAPI.status_code
                 (fst (FastAPI.handle 200 (FastAPI.DELETE_post 9)
                         fastapi_two_users_one_post)) <> 204)
    by (vm_compute; discriminate).
  split; [split; assumption|].
  exact (proj1 (proj2 (fastapi_handle_effect 200 (FastAPI.DELETE_post 9)
                         fastapi_two_users_one_post)) H1 H2).
Defined.



(** ** Pages and search of the FastAPI listings *)

Lemma firstn_app_skipn {A} (n m : nat) (l : list A) :
  firstn n l ++ firstn m (skipn n l) = firstn (n + m) l.
Proof.
  revert l. induction n as [|n IH]; intros l; [reflexivity|].
  destruct l as [|x l]; simpl.
  - now rewrite firstn_nil.
  - now rewrite IH.
Qed.

Lemma In_firstn_skipn {A} (n k : nat) (l : list A) (x : A) :
  In x (firstn n (skipn k l)) -> In x l.
Proof.
  intros H. rewrite <- (firstn_skipn k l). apply in_or_app. right.
  rewrite <- (firstn_skipn n (skipn k l)). apply in_or_app. now left.
Qed.

(** Two consecutive slices of a list make up the slice that spans both. *)
Lemma slice_pages {A} (l : list A) (skip n m : Z) :
  0 <= skip -> 0 <= n -> 0 <= m ->
  Py.slice l skip (skip + n) ++ Py.slice l (skip + n) (skip + n + m)
  = Py.slice l skip (skip + (n + m)).
Proof.
  intros Hs Hn Hm. rewrite !slice_skip_limit by lia.
  rewrite (Z2Nat.inj_add skip n), (Z2Nat.inj_add n m) by lia.
  rewrite (Nat.add_comm (Z.to_nat skip)), <- skipn_skipn.
  apply firstn_app_skipn.
Qed.

(** X10: paging through a FastAPI listing loses and repeats nothing: for
    the same filter, the page of [n] entries after [skip] followed by the
    page of [m] entries after [skip + n] is the page of [n + m] entries
    after [skip], and a page never has more entries than its limit.  This
    holds for the user listing and for the post listing. *)
Theorem fastapi_pages_concatenate
        (skip n m : Z) (search : option string) (user_id : option Z)
        (st : FastAPI.state) :
  0 <= skip -> 0 <= n -> 0 <= m ->
  (exists page1 page2,
      FastAPI.get_users skip n search st
      = FastAPI.Response 200 (FastAPI.UserList page1)
      /\ FastAPI.get_users (skip + n) m search st
         = FastAPI.Response 200 (FastAPI.UserList page2)
      /\ FastAPI.get_users skip (n + m) search st
         = FastAPI.Response 200 (FastAPI.UserList (page1 ++ page2))
      /\ (List.length page1 <= Z.to_nat n)%nat)
  /\ (exists page1 page2,
         FastAPI.get_posts user_id skip n st
         = FastAPI.Response 200 (FastAPI.PostList page1)
         /\ FastAPI.get_posts user_id (skip + n) m st
            = FastAPI.Response 200 (FastAPI.PostList page2)
         /\ FastAPI.get_posts user_id skip (n + m) st
            = FastAPI.Response 200 (FastAPI.PostList (page1 ++ page2))
         /\ (List.length page1 <= Z.to_nat n)%nat).
Proof.
  intros Hs Hn Hm. split.
  - unfold FastAPI.get_users.
    set (filtered := match search with
                     | Some (String _ _ as s) => List.filter _ _
                     | _ => FastAPI.users st
                     end).
    exists (Py.slice filtered skip (skip + n)),
           (Py.slice filtered (skip + n) (skip + n + m)).
    repeat split.
    + now rewrite slice_pages.
    + rewrite slice_skip_limit by lia. apply firstn_le_length.
  - unfold FastAPI.get_posts.
    set (filtered := match user_id with
                     | Some k => if Py.truthy_int k then _ else _
                     | None => FastAPI.posts st
                     end).
    exists (Py.slice filtered skip (skip + n)),
           (Py.slice filtered (skip + n) (skip + n + m)).
    repeat split.
    + now rewrite slice_pages.
    + rewrite slice_skip_limit by lia. apply firstn_le_length.
Qed.

Lemma fastapi_pages_concatenate_witness :
  (0 <= 0 /\ 0 <= 1 /\ 0 <= 1)
  /\ (exists page1 page2,
         FastAPI.get_users 0 1 None fastapi_two_users_one_post
         = FastAPI.Response 200 (FastAPI.UserList page1)
         /\ FastAPI.get_users (0 + 1) 1 None fastapi_two_users_one_post
            = FastAPI.Response 200 (FastAPI.UserList page2)
         /\ FastAPI.get_users 0 (1 + 1) None fastapi_two_users_one_post
            = FastAPI.Response 200 (FastAPI.UserList (page1 ++ page2))
         /\ (List.length page1 <= Z.to_nat 1)%nat).
Proof.
  split; [lia|].
  apply (proj1 (fastapi_pages_concatenate 0 1 1 None None
                  fastapi_two_users_one_post
                  ltac:(lia) ltac:(lia) ltac:(lia))).
Defined.

(** X11: the FastAPI user listing only returns stored users, and with a
    non-empty search term only users whose lower-cased name contains the
    lower-cased term. *)
Theorem fastapi_get_users_sound
        (skip limit : Z) (search : option string) (st : FastAPI.state)
        (page : list FastAPI.User.t) :
  0 <= skip -> 0 <= limit ->
  FastAPI.get_users skip limit search st
  = FastAPI.Response 200 (FastAPI.UserList page) ->
  forall u, In u page ->
    In u (FastAPI.users st)
    /\ (forall term, search = Some term -> term <> EmptyString ->
          Py.contains (Py.lower term) (Py.lower (FastAPI.User.name u))
          = true).
Proof.
  intros Hs Hl. unfold FastAPI.get_users.
  rewrite slice_skip_limit by lia.
  intros Hresp u Hu. injection Hresp as <-.
  apply In_firstn_skipn in Hu.
  destruct search as [[|c s]|].
  - split; [exact Hu|]. intros term [= <-]. congruence.
  - apply List.filter_In in Hu. destruct Hu as [Hin Hmatch].
    split; [exact Hin|]. intros term [= <-] _. exact Hmatch.
  - split; [exact Hu|]. discriminate.
Qed.

Lemma fastapi_get_users_sound_witness :
  (0 <= 0 /\ 0 <= 10)
  /\ (forall u,
         In u [FastAPI.User.mk 2 "Bob" "bob@example.com" 25 101] ->
         In u (FastAPI.users fastapi_two_users_one_post)
         /\ (forall term, Some "BO" = Some term -> term <> EmptyString ->
               Py.contains (Py.lower term) (Py.lower (FastAPI.User.name u))
               = true)).
Proof.
  split; [lia|].
  apply (fastapi_get_users_sound 0 10 (Some "BO") fastapi_two_users_one_post);
    [lia | lia | reflexivity].
Defined.

(** ** Deleting a post (FastAPI) *)

Lemma fastapi_post_eqb_refl (p : FastAPI.Post.t) : FastAPI.Post.eqb p p = true.
Proof.
  unfold FastAPI.Post.eqb.
  now rewrite !Z.eqb_refl, !String.eqb_refl.
Qed.

Lemma fastapi_post_eqb_id (p q : FastAPI.Post.t) :
  FastAPI.Post.eqb p q = true -> FastAPI.Post.id p = FastAPI.Post.id q.
Proof.
  unfold FastAPI.Post.eqb. intros H.
  repeat (apply andb_prop in H; destruct H as [H ?]).
  now apply Z.eqb_eq.
Qed.

Lemma next_or_none_none_inv {A} (p : A -> bool) (l : list A) :
  Py.next_or_none p l = None -> forall y, In y l -> p y = false.
Proof.
  unfold Py.next_or_none. intros H y Hy.
  exact (find_none p l H y Hy).
Qed.

(** X12: deleting a post on the FastAPI service either finds no post
    with the identifier, answers 404 and changes nothing, or answers 204
    and takes out exactly the first post carrying the identifier, leaving
    all other posts in order and the user store untouched. *)
Theorem fastapi_delete_post_cases (k : Z) (st : FastAPI.state) :
  ((forall p, In p (FastAPI.posts st) -> FastAPI.Post.id p <> k)
   /\ FastAPI.delete_post k st
      = (FastAPI.HTTPException 404 "Post not found", st))
  \/ (exists l1 p l2,
         FastAPI.posts st = l1 ++ p :: l2
         /\ FastAPI.Post.id p = k
         /\ (forall q, In q l1 -> FastAPI.Post.id q <> k)
         /\ FastAPI.delete_post k st
            = (FastAPI.Response 204 FastAPI.NoContent,
               FastAPI.mkState (FastAPI.users st) (l1 ++ l2))).
Proof.
  unfold FastAPI.delete_post.
  destruct (Py.next_or_none _ (FastAPI.posts st)) as [post|] eqn:Hfind.
  - right.
    destruct (next_or_none_some _ _ _ Hfind) as [_ Hid]. apply Z.eqb_eq in Hid.
    destruct (remove_found (fun p => FastAPI.Post.id p =? k)
                FastAPI.Post.eqb post (FastAPI.posts st))
      as (l1 & l2 & Hposts & Hl1 & Hrem).
    + apply fastapi_post_eqb_refl.
    + intros y Hy. apply fastapi_post_eqb_id in Hy. apply Z.eqb_eq.
      congruence.
    + exact Hfind.
    + exists l1, post, l2. rewrite Hrem. repeat split; try assumption.
      intros q Hq. apply Z.eqb_neq. now apply Hl1.
  - left. split; [|reflexivity].
    intros p Hp. apply Z.eqb_neq.
    now apply (next_or_none_none_inv _ _ Hfind).
Qed.

(** ** Post identifiers on the Flask service *)

Lemma next_or_none_split {A} (p : A -> bool) (l1 l2 : list A) (x : A) :
  (forall y, In y l1 -> p y = false) ->
  p x = true ->
  Py.next_or_none p (l1 ++ x :: l2) = Some x.
Proof.
  unfold Py.next_or_none. intros Hl1 Hx.
  induction l1 as [|y l1 IH]; simpl.
  - now rewrite Hx.
  - rewrite (Hl1 y) by now left. apply IH. intros z Hz. apply Hl1. now right.
Qed.

Lemma flask_post_ids_position (st : Flask.state) :
  Flask.reachable st ->
  forall i p, nth_error (Flask.posts st) i = Some p ->
              Flask.Post.id p = Z.of_nat i + 1.
Proof.
  induction 1 as [|r request st Hreach IH].
  - intros [|i] p; discriminate.
  - destruct r; simpl; try exact IH.
    + unfold Flask.create_user.
      destruct (Flask.json request) as [data|]; [|exact IH].
      repeat (match goal with
              | |- context [if ?c then _ else _] => destruct c; [exact IH|]
              end).
      exact IH.
    + unfold Flask.delete_user.
      destruct (Py.next_or_none _ (Flask.users st)); exact IH.
    + unfold Flask.create_post.
      destruct (Flask.json request) as [data|]; [|exact IH].
      repeat (match goal with
              | |- context [if ?c then _ else _] => destruct c; [exact IH|]
              end).
      destruct (Py.next_or_none _ (Flask.users st)) as [user|]; [|exact IH].
      simpl. intros i p Hnth.
      destruct (Nat.lt_ge_cases i (List.length (Flask.posts st))) as [Hlt|Hge].
      * rewrite nth_error_app1 in Hnth by exact Hlt. now apply IH.
      * rewrite nth_error_app2 in Hnth by exact Hge.
        destruct (i - List.length (Flask.posts st))%nat as [|j] eqn:Hj.
        -- simpl in Hnth. injection Hnth as <-. simpl.
           replace i with (List.length (Flask.posts st)) by lia. reflexivity.
        -- destruct j; discriminate.
Qed.

(** X13: the Flask service, which cannot delete a post, numbers its
    posts 1, 2, 3, ... in the order of the store in every state it can
    reach: the post at position [i] (from 0) has identifier [i + 1] and is
    the one a get for [i + 1] returns, and a get for an identifier outside
    1 .. number of posts is answered with 404. *)
Theorem flask_posts_numbered_in_order (st : Flask.state) :
  Flask.reachable st ->
  (forall i p, nth_error (Flask.posts st) i = Some p ->
               Flask.Post.id p = Z.of_nat i + 1
               /\ Flask.get_post (Z.of_nat i + 1) st
                  = Flask.Response (Flask.OnePost p) 200)
  /\ (forall k, k < 1 \/ Z.of_nat (List.length (Flask.posts st)) < k ->
                Flask.get_post k st
                = Flask.Response (Flask.Error "Post not found") 404).
Proof.
  intros Hreach. pose proof (flask_post_ids_position st Hreach) as Hpos.
  split.
  - intros i p Hnth. split; [now apply Hpos|].
    destruct (nth_error_split _ _ Hnth) as (l1 & l2 & Hposts & Hlen).
    unfold Flask.get_post. rewrite Hposts.
    rewrite (next_or_none_split _ l1 l2 p); [reflexivity | |].
    + intros q Hq. apply In_nth_error in Hq. destruct Hq as [j Hj].
      assert (Hjlt : (j < List.length l1)%nat)
        by (apply nth_error_Some; congruence).
      assert (Hq : nth_error (Flask.posts st) j = Some q)
        by (rewrite Hposts, nth_error_app1; assumption).
      apply Hpos in Hq. apply Z.eqb_neq. lia.
    + apply Z.eqb_eq. now apply Hpos.
  - intros k Hk. unfold Flask.get_post.
    rewrite next_or_none_none; [reflexivity|].
    intros p Hp. apply Z.eqb_neq.
    pose proof (flask_post_ids_bounded st Hreach p Hp). lia.
Qed.

Lemma flask_posts_numbered_in_order_witness :
  Flask.get_post 1 (snd (Flask.serve flask_user_then_post Flask.init))
  = Flask.Response
      (Flask.OnePost
         (Flask.Post.mk 1 (Py.VStr "Title") (Py.VStr "Text") (Py.VInt 1)
            (Py.VStr "Alice")))
      200
  /\ Flask.get_post 2 (snd (Flask.serve flask_user_then_post Flask.init))
     = Flask.Response (Flask.Error "Post not found") 404.
Proof.
  pose proof (flask_posts_numbered_in_order
                (snd (Flask.serve flask_user_then_post Flask.init))
                (flask_serve_reachable flask_user_then_post Flask.init
                   Flask.reachable_init)) as [Hfound Hmissing].
  split.
  - apply (Hfound 0%nat). reflexivity.
  - apply (Hmissing 2). right. vm_compute. reflexivity.
Defined.

(** ** User identifiers as long as no user is deleted *)

Lemma sequential_snoc (ids : list Z) :
  sequential ids ->
  sequential (ids ++ [Z.of_nat (List.length ids) + 1]).
Proof.
  unfold sequential. intros H. rewrite length_app. simpl List.length.
  rewrite Nat.add_1_r, seq_S, map_app. simpl List.map.
  rewrite <- H. f_equal. f_equal. lia.
Qed.

(** One FastAPI request other than a user deletion keeps the stored user
    identifiers, or appends the identifier it hands out. *)
Lemma fastapi_handle_no_delete (now : FastAPI.datetime) (r : FastAPI.request)
      (st : FastAPI.state) :
  (forall k, r <> FastAPI.DELETE_user k) ->
  let ids := List.map FastAPI.User.id (FastAPI.users st) in
  let ids' :=
    List.map FastAPI.User.id (FastAPI.users (snd (FastAPI.handle now r st))) in
  match FastAPI.assigned_user_id (fst (FastAPI.handle now r st)) with
  | Some k => k = Z.of_nat (List.length ids) + 1 /\ ids' = ids ++ [k]
  | None => ids' = ids
  end.
Proof.
  intros Hr. destruct r; simpl; try reflexivity.
  - unfold FastAPI.get_user.
    destruct (Py.next_or_none _ (FastAPI.users st)); simpl; reflexivity.
  - unfold FastAPI.create_user.
    destruct (Py.any _ (FastAPI.users st)); simpl; [reflexivity|].
    rewrite map_app, length_map. now split.
  - now contradiction (Hr user_id).
  - unfold FastAPI.get_post.
    destruct (Py.next_or_none _ (FastAPI.posts st)); simpl; reflexivity.
  - unfold FastAPI.create_post, FastAPI.get_user_by_id.
    destruct (Py.next_or_none _ (FastAPI.users st)); simpl; reflexivity.
  - unfold FastAPI.delete_post.
    destruct (Py.next_or_none _ (FastAPI.posts st)); simpl; reflexivity.
Qed.

Lemma fastapi_serve_no_delete
      (rs : list (FastAPI.datetime * FastAPI.request)) :
  (forall now r k, In (now, r) rs -> r <> FastAPI.DELETE_user k) ->
  forall st,
    sequential (List.map FastAPI.User.id (FastAPI.users st)) ->
    sequential
      (List.map FastAPI.User.id (FastAPI.users (snd (FastAPI.serve rs st))))
    /\ List.map FastAPI.User.id (FastAPI.users (snd (FastAPI.serve rs st)))
       = List.map FastAPI.User.id (FastAPI.users st)
         ++ omap FastAPI.assigned_user_id (fst (FastAPI.serve rs st)).
Proof.
  induction rs as [|[now r] rs IH]; intros Hrs st Hseq.
  - simpl. now rewrite app_nil_r.
  - simpl.
    pose proof (fastapi_handle_no_delete now r st
                  (fun k => Hrs now r k (or_introl eq_refl))) as Hstep.
    destruct (FastAPI.handle now r st) as [resp st1]. simpl in Hstep.
    assert (Hrs' : forall now0 r0 k, In (now0, r0) rs ->
                                     r0 <> FastAPI.DELETE_user k)
      by (intros now0 r0 k Hin; apply (Hrs now0 r0 k); now right).
    specialize (IH Hrs' st1).
    destruct (FastAPI.serve rs st1) as [resps st2]. simpl in IH |- *.
    destruct (FastAPI.assigned_user_id resp) as [k|].
    + destruct Hstep as [-> Hids]. rewrite Hids in IH.
      destruct IH as [IH1 IH2]; [now apply sequential_snoc|].
      split; [exact IH1|]. rewrite IH2, <- app_assoc. reflexivity.
    + rewrite Hstep in IH. now apply IH.
Qed.

Lemma flask_handle_no_delete (r : Flask.route) (request : Flask.Request)
      (st : Flask.state) :
  (forall k, r <> Flask.DELETE_user k) ->
  let ids := List.map Flask.User.id (Flask.users st) in
  let ids' :=
    List.map Flask.User.id (Flask.users (snd (Flask.handle r request st))) in
  match Flask.assigned_user_id (fst (Flask.handle r request st)) with
  | Some k => k = Z.of_nat (List.length ids) + 1 /\ ids' = ids ++ [k]
  | None => ids' = ids
  end.
Proof.
  intros Hr. destruct r; simpl; try reflexivity.
  - unfold Flask.create_user.
    destruct (Flask.json request) as [data|]; [|reflexivity].
    repeat (match goal with
            | |- context [if ?c then _ else _] =>
                destruct c; simpl; [reflexivity|]
            end).
    rewrite map_app, length_map. now split.
  - unfold Flask.get_user.
    destruct (Py.next_or_none _ (Flask.users st)); simpl; reflexivity.
  - now contradiction (Hr user_id).
  - unfold Flask.create_post.
    destruct (Flask.json request) as [data|]; [|reflexivity].
    repeat (match goal with
            | |- context [if ?c then _ else _] =>
                destruct c; simpl; [reflexivity|]
            end).
    destruct (Py.next_or_none _ (Flask.users st)); simpl; reflexivity.
  - unfold Flask.get_post.
    destruct (Py.next_or_none _ (Flask.posts st)); simpl; reflexivity.
Qed.

Lemma flask_serve_no_delete (rs : list (Flask.route * Flask.Request)) :
  (forall r request k, In (r, request) rs -> r <> Flask.DELETE_user k) ->
  forall st,
    sequential (List.map Flask.User.id (Flask.users st)) ->
    sequential
      (List.map Flask.User.id (Flask.users (snd (Flask.serve rs st))))
    /\ List.map Flask.User.id (Flask.users (snd (Flask.serve rs st)))
       = List.map Flask.User.id (Flask.users st)
         ++ omap Flask.assigned_user_id (fst (Flask.serve rs st)).
Proof.
  induction rs as [|[r request] rs IH]; intros Hrs st Hseq.
  - simpl. now rewrite app_nil_r.
  - simpl.
    pose proof (flask_handle_no_delete r request st
                  (fun k => Hrs r request k (or_introl eq_refl))) as Hstep.
    destruct (Flask.handle r request st) as [resp st1]. simpl in Hstep.
    assert (Hrs' : forall r0 request0 k, In (r0, request0) rs ->
                                         r0 <> Flask.DELETE_user k)
      by (intros r0 request0 k Hin; apply (Hrs r0 request0 k); now right).
    specialize (IH Hrs' st1).
    destruct (Flask.serve rs st1) as [resps st2]. simpl in IH |- *.
    destruct (Flask.assigned_user_id resp) as [k|].
    + destruct Hstep as [-> Hids]. rewrite Hids in IH.
      destruct IH as [IH1 IH2]; [now apply sequential_snoc|].
      split; [exact IH1|]. rewrite IH2, <- app_assoc. reflexivity.
    + rewrite Hstep in IH. now apply IH.
Qed.

(** X14: as long as no user is deleted, user identifiers are handed out
    in sequence: after any run of requests without a user deletion, from
    the empty stores, the identifiers returned by the successful user
    creations are, in order, those of the stored users, and they are
    1, 2, ..., the number of stored users.  This holds on both services. *)
Theorem user_ids_sequential_without_delete :
  (forall rs : list (FastAPI.datetime * FastAPI.request),
      (forall now r k, In (now, r) rs -> r <> FastAPI.DELETE_user k) ->
      let ids :=
        List.map FastAPI.User.id
          (FastAPI.users (snd (FastAPI.serve rs FastAPI.init))) in
      omap FastAPI.assigned_user_id (fst (FastAPI.serve rs FastAPI.init))
      = ids
      /\ ids = List.map Z.of_nat (seq 1 (List.length ids)))
  /\ (forall rs : list (Flask.route * Flask.Request),
         (forall r request k, In (r, request) rs ->
                              r <> Flask.DELETE_user k) ->
         let ids :=
           List.map Flask.User.id
             (Flask.users (snd (Flask.serve rs Flask.init))) in
         omap Flask.assigned_user_id (fst (Flask.serve rs Flask.init)) = ids
         /\ ids = List.map Z.of_nat (seq 1 (List.length ids))).
Proof.
  split; intros rs Hrs.
  - destruct (fastapi_serve_no_delete rs Hrs FastAPI.init) as [Hseq Hids];
      [reflexivity|].
    split; [now rewrite Hids | exact Hseq].
  - destruct (flask_serve_no_delete rs Hrs Flask.init) as [Hseq Hids];
      [reflexivity|].
    split; [now rewrite Hids | exact Hseq].
Qed.

Lemma user_ids_sequential_without_delete_witness :
  (omap FastAPI.assigned_user_id
     (fst (FastAPI.serve fastapi_create_create FastAPI.init)) = [1; 2]
   /\ List.map FastAPI.User.id
        (FastAPI.users (snd (FastAPI.serve fastapi_create_create
                               FastAPI.init)))
      = List.map Z.of_nat (seq 1 2))
  /\ (omap Flask.assigned_user_id
        (fst (Flask.serve flask_create_create Flask.init)) = [1; 2]
      /\ List.map Flask.User.id
           (Flask.users (snd (Flask.serve flask_create_create Flask.init)))
         = List.map Z.of_nat (seq 1 2)).
Proof.
  split.
  - apply (proj1 user_ids_sequential_without_delete fastapi_create_create).
    intros now r k [H | [H | []]]; injection H as _ <-; discriminate.
  - apply (proj2 user_ids_sequential_without_delete flask_create_create).
    intros r request k [H | [H | []]]; injection H as <- _; discriminate.
Defined.

(** ** Creating again, and creating after a deletion *)







(** ** Get after delete and after create, away from reused identifiers *)

(** X17: in a state whose stored user identifiers are pairwise distinct,
    a get for an identifier that has just been deleted with 204 is
    answered with 404, on both services. *)
Theorem delete_user_then_get_404_when_ids_distinct :
  (forall (k : Z) (st : FastAPI.state),
      List.NoDup (List.map FastAPI.User.id (FastAPI.users st)) ->
      FastAPI.status_code (fst (FastAPI.delete_user k st)) = 204 ->
      FastAPI.get_user k (snd (FastAPI.delete_user k st))
      = FastAPI.HTTPException 404 "User not found")
  /\ (forall (k : Z) (st : Flask.state),
         List.NoDup (List.map Flask.User.id (Flask.users st)) ->
         Flask.status_code (fst (Flask.delete_user k st)) = 204 ->
         Flask.get_user k (snd (Flask.delete_user k st))
         = Flask.Response (Flask.Error "User not found") 404).
Proof.
  split; intros k st Hnodup Hstatus.
  - now apply fastapi_delete_then_get_distinct_ids.
  - now apply flask_delete_then_get_distinct_ids.
Qed.

Lemma delete_user_then_get_404_when_ids_distinct_witness :
  FastAPI.get_user 1 (snd (FastAPI.delete_user 1 fastapi_two_users_one_post))
  = FastAPI.HTTPException 404 "User not found"
  /\ Flask.get_user 1 (snd (Flask.delete_user 1 flask_two_users_one_post))
     = Flask.Response (Flask.Error "User not found") 404.
Proof.
  split.
  - apply (proj1 delete_user_then_get_404_when_ids_distinct 1
             fastapi_two_users_one_post).
    + repeat constructor; simpl; intuition discriminate.
    + reflexivity.
  - apply (proj2 delete_user_then_get_404_when_ids_distinct 1
             flask_two_users_one_post).
    + repeat constructor; simpl; intuition discriminate.
    + reflexivity.
Defined.

Lemma flask_create_user_then_get (args : list (string * string))
      (data : gmap string Py.value) (st : Flask.state) :
  Py.truthy (Py.dict_get data "name") = true ->
  Py.truthy (Py.dict_get data "email") = true ->
  (forall u, In u (Flask.users st) ->
             Py.eq_value (Flask.User.email u) (Py.dict_get data "email")
             = false) ->
  (forall u, In u (Flask.users st) ->
             Flask.User.id u <> Z.of_nat (List.length (Flask.users st)) + 1) ->
  Flask.get_user (Z.of_nat (List.length (Flask.users st)) + 1)
    (snd (Flask.create_user (Flask.mkRequest args (Some data)) st))
  = Flask.Response
      (Flask.OneUser
         (Flask.User.mk (Z.of_nat (List.length (Flask.users st)) + 1)
            (Py.dict_get data "name") (Py.dict_get data "email")))
      200.
Proof.
  intros Hname Hmail Hfresh Hid.
  rewrite flask_create_user_fresh by assumption.
  unfold Flask.get_user. simpl. rewrite next_or_none_app.
  rewrite next_or_none_none.
  - simpl. now rewrite Z.eqb_refl.
  - intros u Hu. apply Z.eqb_neq. now apply Hid.
Qed.

(** X18: when no stored user has the email of a create-user request nor
    the identifier the request is about to receive (the number of stored
    users plus one), the get for that identifier right after the creation
    returns the new record, with the name, email and age submitted, on
    both services. *)
Theorem create_user_then_get_round_trip :
  (forall (now : FastAPI.datetime) (user : FastAPI.UserCreate.t)
          (st : FastAPI.state),
      (forall u, In u (FastAPI.users st) ->
                 FastAPI.User.email u <> FastAPI.UserCreate.email user) ->
      (forall u, In u (FastAPI.users st) ->
                 FastAPI.User.id u
                 <> Z.of_nat (List.length (FastAPI.users st)) + 1) ->
      FastAPI.get_user (Z.of_nat (List.length (FastAPI.users st)) + 1)
        (snd (FastAPI.create_user now user st))
      = FastAPI.Response 200
          (FastAPI.OneUser
             (FastAPI.User.mk
                (Z.of_nat (List.length (FastAPI.users st)) + 1)
                (FastAPI.UserCreate.name user)
                (FastAPI.UserCreate.email user)
                (FastAPI.UserCreate.age user) now)))
  /\ (forall (args : list (string * string)) (data : gmap string Py.value)
             (st : Flask.state),
         Py.truthy (Py.dict_get data "name") = true ->
         Py.truthy (Py.dict_get data "email") = true ->
         (forall u, In u (Flask.users st) ->
                    Py.eq_value (Flask.User.email u)
                                (Py.dict_get data "email") = false) ->
         (forall u, In u (Flask.users st) ->
                    Flask.User.id u
                    <> Z.of_nat (List.length (Flask.users st)) + 1) ->
         Flask.get_user (Z.of_nat (List.length (Flask.users st)) + 1)
           (snd (Flask.create_user (Flask.mkRequest args (Some data)) st))
         = Flask.Response
             (Flask.OneUser
                (Flask.User.mk
                   (Z.of_nat (List.length (Flask.users st)) + 1)
                   (Py.dict_get data "name") (Py.dict_get data "email")))
             200).
Proof.
  split.
  - intros now user st Hfresh Hid. now apply fastapi_create_user_then_get.
  - intros args data st Hname Hmail Hfresh Hid.
    now apply flask_create_user_then_get.
Qed.

Lemma create_user_then_get_round_trip_witness :
  FastAPI.get_user 3
    (snd (FastAPI.create_user 200 fastapi_carol fastapi_two_users_one_post))
  = FastAPI.Response 200
      (FastAPI.OneUser
         (FastAPI.User.mk 3 "Carol" "carol@example.com" 41 200))
  /\ Flask.get_user 3
       (snd (Flask.create_user flask_carol flask_two_users_one_post))
     = Flask.Response
         (Flask.OneUser
            (Flask.User.mk 3 (Py.VStr "Carol")
               (Py.VStr "carol@example.com")))
         200.
Proof.
  split.
  - apply (proj1 create_user_then_get_round_trip 200 fastapi_carol
             fastapi_two_users_one_post).
    + intros u [<- | [<- | []]]; discriminate.
    + intros u [<- | [<- | []]]; discriminate.
  - assert (H : Flask.get_user
                  (Z.of_nat (List.length
                               (Flask.users flask_two_users_one_post)) + 1)
                  (snd (Flask.create_user
                          (Flask.mkRequest []
                             (Some {[ "name" := Py.VStr "Carol";
                                      "email" :=
                                        Py.VStr "carol@example.com" ]}))
                          flask_two_users_one_post))
                = Flask.Response
                    (Flask.OneUser
                       (Flask.User.mk
                          (Z.of_nat
                             (List.length
                                (Flask.users flask_two_users_one_post)) + 1)
                          (Py.dict_get
                             {[ "name" := Py.VStr "Carol";
                                "email" := Py.VStr "carol@example.com" ]}
                             "name")
                          (Py.dict_get
                             {[ "name" := Py.VStr "Carol";
                                "email" := Py.VStr "carol@example.com" ]}
                             "email")))
                    200).
    { apply (proj2 create_user_then_get_round_trip []
               {[ "name" := Py.VStr "Carol";
                  "email" := Py.VStr "carol@example.com" ]}
               flask_two_users_one_post).
      + vm_compute. reflexivity.
      + vm_compute. reflexivity.
      + intros u [<- | [<- | []]]; vm_compute; reflexivity.
      + intros u [<- | [<- | []]]; discriminate. }
    vm_compute in H. vm_compute. exact H.
Defined.

(** X19: on the Flask service, in every state it can reach, a post
    created with 201 carries the title, content and user_id of the
    request body, and the get for its identifier right after returns that
    very record. *)
Theorem flask_create_post_round_trip
        (request : Flask.Request) (st : Flask.state) (p : Flask.Post.t) :
  Flask.reachable st ->
  fst (Flask.create_post request st) = Flask.Response (Flask.OnePost p) 201 ->
  Flask.get_post (Flask.Post.id p) (snd (Flask.create_post request st))
  = Flask.Response (Flask.OnePost p) 200
  /\ exists data,
      Flask.json request = Some data
      /\ Flask.Post.title p = Py.dict_get data "title"
      /\ Flask.Post.content p = Py.dict_get data "content"
      /\ Flask.Post.user_id p = Py.dict_get data "user_id".
Proof.
  intros Hreach Hresp.
  split; [now apply flask_create_post_then_get|].
  revert Hresp. unfold Flask.create_post.
  destruct (Flask.json request) as [data|]; [|discriminate].
  repeat (match goal with
          | |- context [if ?c then _ else _] => destruct c; [discriminate|]
          end).
  destruct (Py.next_or_none _ (Flask.users st)) as [user|]; [|discriminate].
  simpl. intros Hresp. injection Hresp as <-. exists data.
  repeat split.
Qed.

Lemma flask_create_post_round_trip_witness :
  Flask.get_post 1
    (snd (Flask.create_post
            (Flask.mkRequest []
               (Some {[ "title" := Py.VStr "Title";
                        "content" := Py.VStr "Text";
                        "user_id" := Py.VInt 1 ]}))
            (snd (Flask.serve
                    [(Flask.POST_users,
                      flask_new_user "Alice" "alice@example.com")]
                    Flask.init))))
  = Flask.Response
      (Flask.OnePost
         (Flask.Post.mk 1 (Py.VStr "Title") (Py.VStr "Text") (Py.VInt 1)
            (Py.VStr "Alice")))
      200.
Proof.
  apply (flask_create_post_round_trip
           (Flask.mkRequest []
              (Some {[ "title" := Py.VStr "Title";
                       "content" := Py.VStr "Text";
                       "user_id" := Py.VInt 1 ]}))
           (snd (Flask.serve
                   [(Flask.POST_users,
                     flask_new_user "Alice" "alice@example.com")]
                   Flask.init))
           (Flask.Post.mk 1 (Py.VStr "Title") (Py.VStr "Text") (Py.VInt 1)
              (Py.VStr "Alice"))).
  - apply flask_serve_reachable, Flask.reachable_init.
  - vm_compute. reflexivity.
Defined.
